(** * astrocalc: Julian dates, sun and moon ephemeris

    A shallow embedding of [astrocalc.go].  Go's [int64] is modelled as [Z]
    with the two's-complement wrap-around written out, [float64] as Rocq's
    primitive binary64 floats, [time.Time] as a pair of Unix seconds and
    nanoseconds, [map[string]time.Time] as a [gmap]. *)

From Stdlib Require Import ZArith Lia Bool List.
From Stdlib Require Import Floats.
From stdpp Require Import base strings gmap.

Set Default Proof Using "Type".
Local Open Scope Z_scope.

(** ** 64-bit signed integers *)

Module Int64.

Definition min_int : Z := - 2 ^ 63.
Definition max_int : Z := 2 ^ 63 - 1.
Definition modulus : Z := 2 ^ 64.

Definition in_range (z : Z) : Prop := min_int <= z <= max_int.

(** Reduction of a mathematical integer into the [int64] range. *)
Definition wrap (z : Z) : Z := (z + 2 ^ 63) mod modulus - 2 ^ 63.

Definition add (a b : Z) : Z := wrap (a + b).
Definition sub (a b : Z) : Z := wrap (a - b).
Definition mul (a b : Z) : Z := wrap (a * b).
(** Go's [/] and [%] truncate toward zero. *)
Definition quo (a b : Z) : Z := wrap (Z.quot a b).
Definition rem (a b : Z) : Z := Z.rem a b.

End Int64.

(** ** time.Time *)

(** An instant is what [t.Unix()] and [t.Nanosecond()] return: seconds since
    the Unix epoch as an [int64], and nanoseconds within that second. *)
Record Instant : Type := mkInstant { unix : Z; nanosecond : Z }.

Definition Instant_ok (t : Instant) : Prop :=
  Int64.in_range (unix t) /\ 0 <= nanosecond t < 1000000000.

(** [time.Unix(sec, nsec)]: nanoseconds outside [0, 999999999] are carried
    into the seconds. *)
Definition time_Unix (sec nsec : Z) : Instant :=
  if (nsec <? 0) || (1000000000 <=? nsec) then
    let n := Int64.quo nsec 1000000000 in
    let sec := Int64.add sec n in
    let nsec := Int64.sub nsec (Int64.mul n 1000000000) in
    if nsec <? 0 then mkInstant (Int64.sub sec 1) (Int64.add nsec 1000000000)
    else mkInstant sec nsec
  else mkInstant sec nsec.

(** ** float64 *)

Set Warnings "-inexact-float,-clear-no-such-hyp".

Module F64.
Local Open Scope float_scope.

(** [float64(z)] for an integer [z]: the nearest binary64 value, ties to
    even. *)
Definition of_int64 (z : Z) : float :=
  SF2Prim (binary_normalize prec emax z 0%Z false).

(** The integer a finite float truncates to (toward zero). *)
Definition truncZ (f : float) : option Z :=
  match Prim2SF f with
  | S754_zero _ => Some 0%Z
  | S754_finite s m e =>
      let v := Z.shiftl (Zpos m) e in Some (if s then (- v)%Z else v)
  | _ => None
  end.

(** [int64(f)]: truncation toward zero.  When the value does not fit (or is
    not a number) Go leaves the result to the implementation; amd64 yields
    the most negative integer. *)
Definition to_int64 (f : float) : Z :=
  match truncZ f with
  | Some v => if ((Int64.min_int <=? v) && (v <=? Int64.max_int))%Z then v
              else Int64.min_int
  | None => Int64.min_int
  end.

(** The integer part of a float that is at least 1, infinite or not a
    number: the fractional mantissa bits are cleared. *)
Definition clearFraction (f : float) : float :=
  match Prim2SF f with
  | S754_finite s m e =>
      if (e <? 0)%Z then
        let f' := of_int64 (Z.shiftl (Zpos m) e) in if s then - f' else f'
      else f
  | _ => f
  end.

(** [math.Modf]: integer and fractional parts, both with the sign of [f]. *)
Definition Modf (f : float) : float * float :=
  let positive (x : float) : float * float :=
    if x <? 1 then (0, x)
    else let int := clearFraction x in (int, x - int) in
  if f <? 1 then
    if f <? 0 then let '(int, frac) := positive (- f) in (- int, - frac)
    else if f =? 0 then (f, f)
    else (0, f)
  else positive f.

(** [math.Floor] and [math.Ceil]. *)
Definition Floor (x : float) : float :=
  if (x =? 0) || is_nan x || is_infinity x then x
  else if x <? 0 then
    let '(d, fract) := Modf (- x) in
    let d := if fract =? 0 then d else d + 1 in
    - d
  else fst (Modf x).

Definition Ceil (x : float) : float := - Floor (- x).

Definition Pi : float := 0x1.921fb54442d18p+1.

End F64.

(** The functions of Go's [math] package that are approximations, taken as
    parameters of the development. *)
Class Libm : Type := {
  Sin : float -> float;
  Cos : float -> float;
  Tan : float -> float;
  Asin : float -> float;
  Acos : float -> float;
  Atan2 : float -> float -> float;
  Pow : float -> float -> float
}.

(** ** JulianDate *)

Record JulianDate : Type := mkJulian { julianDayNumber : Z; time : Z }.

Definition integerDivide (a b : Z) : Z * Z :=
  let q := Int64.quo a b in
  let r := Int64.rem a b in
  if r <? 0 then (Int64.sub q 1, Int64.add r b) else (q, r).

Definition daySec : Z := 60 * 60 * 24.
Definition halfDaySec : Z := 60 * 60 * 12.
Definition halfDayNano : Z := 1000000000 * 60 * 60 * 12.
Definition j1970 : Z := 2440588.
Definition j2000 : Z := 2451545.

Definition removeHalfDay (j : JulianDate) : JulianDate :=
  if time j <? halfDayNano then
    mkJulian (Int64.sub (julianDayNumber j) 1) (Int64.add (time j) halfDayNano)
  else
    mkJulian (julianDayNumber j) (Int64.sub (time j) halfDayNano).

Definition NewJulian (t : Instant) : JulianDate :=
  let '(d1970, secs) := integerDivide (unix t) daySec in
  let j := Int64.add d1970 j1970 in
  let jdn :=
    mkJulian j (Int64.add (Int64.mul secs 1000000000) (nanosecond t)) in
  removeHalfDay jdn.

Definition toDays (t : Instant) : JulianDate :=
  let jdn := NewJulian t in
  mkJulian (Int64.sub (julianDayNumber jdn) j2000) (time jdn).

Definition Time (j : JulianDate) : Instant :=
  time_Unix
    (Int64.add (Int64.mul (Int64.sub (julianDayNumber j) j1970) daySec) halfDaySec)
    (time j).

Definition DayTime (j : JulianDate) : Z * Z := (julianDayNumber j, time j).

Definition JulianFromDayTime (julianDayNumber time : Z) : JulianDate :=
  mkJulian julianDayNumber time.


Definition JulianFromFloat (j : float) : JulianDate :=
  let '(int, frac) := F64.Modf j in
  mkJulian (F64.to_int64 int) (F64.to_int64 (frac * 86400 * 1e9)%float).

(** ** Sun and moon calculations *)

Record sunTime : Type :=
  mkSunTime { angle : float; riseName : string; setName : string }.

(** The definitions a calculator shows: the elements of its slice, in order.
    The slice itself, with its backing array, is modelled further down,
    under "Calculators in memory". *)
Record SunCalc : Type := mkSunCalc { times : list sunTime }.

(** Untyped constant expressions are evaluated exactly by the Go compiler and
    rounded once, where they meet a [float64] operand; the literals below are
    those roundings. *)
Module Const.
Local Open Scope float_scope.

Definition rad : float := 0x1.1df46a2529d39p-6.        (* math.Pi / 180 *)
Definition e : float := 0x1.a2eb18480f460p-2.          (* rad * 23.4397 *)
Definition twoPi : float := 0x1.921fb54442d18p+2.      (* 2 * math.Pi *)
Definition stCoef0Nano : Z := 28016 * 10000000.
Definition stCoef1Nano : Z := 3609856235 * 100.
Definition maCoef0Nano : Z := 3575291 * 100000.
Definition maCoef1Nano : Z := 985600280.
Definition stRate : float := 0x1.839af8fdec3e4p-22.    (* float64(stCoef1Nano) / 1e18 *)
Definition maRate : float := 0x1.0eeb743708bc0p-30.    (* float64(maCoef1Nano) / 1e18 *)
Definition perihelion : float := 0x1.cbed85e0e09a6p+0. (* rad * 102.9372 *)
Definition j0 : float := 0.0009.
Definition sdist : float := 149598000.
Definition rad6_289 : float := 0x1.c197a4121c319p-4.   (* rad * 6.289 *)
Definition rad5_128 : float := 0x1.6e980f3f00e2bp-4.   (* rad * 5.128 *)
Definition rad0_017 : float := 0x1.371e6732ac7bbp-12.  (* rad * 0.017 *)
Definition rad10_26 : float := 0x1.6ebca96943152p-3.   (* rad * 10.26 *)
Definition rad5_10 : float := 0x1.6c97a0ef6220fp-4.    (* rad * 5.10 *)
End Const.

Section Astro.
Context {M : Libm}.
Import F64 Const.
Local Open Scope float_scope.

Definition rightAscension (l b : float) : float :=
  Atan2 (Sin l * Cos e - Tan b * Sin e) (Cos l).

Definition declination (l b : float) : float :=
  Asin (Sin b * Cos e + Cos b * Sin e * Sin l).

Definition azimuth (H phi dec : float) : float :=
  Atan2 (Sin H) (Cos H * Sin phi - Tan dec * Cos phi).

Definition altitude (H phi dec : float) : float :=
  Asin (Sin phi * Sin dec + Cos phi * Cos dec * Cos H).

Definition siderealTime (d : JulianDate) (lw : float) : float :=
  let i := Int64.rem
             (Int64.add stCoef0Nano (Int64.mul (julianDayNumber d) stCoef1Nano))
             360000000000 in
  let st := rad * (of_int64 i / 1e9 + of_int64 (time d) / 86400 * stRate) - lw in
  if st <? 0 then st + twoPi else st.

Definition solarMeanAnomaly (d : JulianDate) : float :=
  let i := Int64.rem
             (Int64.add maCoef0Nano (Int64.mul (julianDayNumber d) maCoef1Nano))
             360000000000 in
  let ma := rad * (of_int64 i / 1e9 + of_int64 (time d) / 86400 * maRate) in
  if ma <? 0 then ma + twoPi else ma.

Definition eclipticLongitude (m : float) : float :=
  let c := rad * (1.9148 * Sin m + 0.02 * Sin (2 * m) + 0.0003 * Sin (3 * m)) in
  let p := perihelion in
  m + c + p + Pi.

(** Returns [(dec, ra)]. *)
Definition sunCoords (d : JulianDate) : float * float :=
  let m := solarMeanAnomaly d in
  let l := eclipticLongitude m in
  (declination l 0, rightAscension l 0).

Definition NewSunCalc : SunCalc :=
  mkSunCalc
    [ mkSunTime (-0.833) "sunrise" "sunset";
      mkSunTime (-0.3) "sunriseEnd" "sunsetStart";
      mkSunTime (-6) "dawn" "dusk";
      mkSunTime (-12) "nauticalDawn" "nauticalDusk";
      mkSunTime (-18) "nightEnd" "night";
      mkSunTime 6 "goldenHourEnd" "goldenHour" ].

(** Returns [(azim, alti)]. *)
Definition GetPosition (s : SunCalc) (date : Instant) (lat lng : float)
  : float * float :=
  let lw := rad * - lng in
  let phi := rad * lat in
  let d := toDays date in
  let '(dec, ra) := sunCoords d in
  let h := siderealTime d lw - ra in
  (azimuth h phi dec, altitude h phi dec).

(** What the receiver shows after the call. *)
Definition AddTime (s : SunCalc) (angle : float) (riseName setName : string)
  : SunCalc :=
  mkSunCalc (times s ++ [mkSunTime angle riseName setName]).

Definition round (val roundOn : float) (places : Z) : float :=
  let pow := Pow 10 (of_int64 places) in
  let digit := pow * val in
  let '(_, div) := Modf digit in
  let round := if roundOn <=? div then Ceil digit else Floor digit in
  round / pow.

Definition julianCycle (d : JulianDate) (lw : float) : float :=
  round (of_int64 (julianDayNumber d) + of_int64 (time d) / 86400e9
         - j0 - lw / twoPi) 0.5 0.

Definition approxTransit (Ht lw n : float) : float :=
  j0 + (Ht + lw) / twoPi + n.

Definition solarTransitJ (ds M' L : float) : float :=
  2451545 + ds + 0.0053 * Sin M' - 0.0069 * Sin (2 * L).

Definition hourAngle (h phi d : float) : float :=
  Acos ((Sin h - Sin phi * Sin d) / (Cos phi * Cos d)).

Definition getSetJ (h lw phi dec n m l : float) : float :=
  let w := hourAngle h phi dec in
  let a := approxTransit w lw n in
  solarTransitJ a m l.

Definition GetTimes (s : SunCalc) (date : Instant) (lat lng : float)
  : gmap string Instant :=
  let lw := rad * - lng in
  let phi := rad * lat in
  let d := toDays date in
  let n := julianCycle d lw in
  let ds := approxTransit 0 lw n in
  let m := solarMeanAnomaly (JulianFromFloat ds) in
  let l := eclipticLongitude m in
  let dec := declination l 0 in
  let jNoon := solarTransitJ ds m l in
  let result : gmap string Instant := ∅ in
  let result := <["solarNoon" := Time (JulianFromFloat jNoon)]> result in
  let result := <["nadir" := Time (JulianFromFloat (jNoon - 0.5))]> result in
  foldl
    (fun (result : gmap string Instant) (t : sunTime) =>
       let jSet := getSetJ (angle t * rad) lw phi dec n m l in
       let jRise := jNoon - (jSet - jNoon) in
       let result :=
         if String.eqb (riseName t) "" then result
         else <[riseName t := Time (JulianFromFloat jRise)]> result in
       let result :=
         if String.eqb (setName t) "" then result
         else <[setName t := Time (JulianFromFloat jSet)]> result in
       result)
    result (times s).

(** Returns [(dec, ra, dist)]. *)
Definition moonCoords (jd : JulianDate) : float * float * float :=
  let d := of_int64 (julianDayNumber jd) + of_int64 (time jd) / 86400e9 in
  let L := rad * (218.316 + 13.176396 * d) in
  let M' := rad * (134.963 + 13.064993 * d) in
  let F := rad * (93.272 + 13.229350 * d) in
  let l := L + rad6_289 * Sin M' in
  let b := rad5_128 * Sin F in
  let dt := 385001 - 20905 * Cos M' in
  (declination l b, rightAscension l b, dt).

(** Returns [(azim, alti, dist)]. *)
Definition GetMoonPosition (date : Instant) (lat lng : float)
  : float * float * float :=
  let lw := rad * - lng in
  let phi := rad * lat in
  let d := toDays date in
  let '(dec, ra, distance) := moonCoords d in
  let H := siderealTime d lw - ra in
  let h := altitude H phi dec in
  let h := h + rad0_017 / Tan (h + rad10_26 / (h + rad5_10)) in
  (azimuth H phi dec, h, distance).

(** Returns [(fraction, phase, angle)]. *)
Definition GetMoonIllumination (date : Instant) : float * float * float :=
  let d := toDays date in
  let '(sDec, sRa) := sunCoords d in
  let '(mDec, mRa, mDist) := moonCoords d in
  let phi := Acos (Sin sDec * Sin mDec + Cos sDec * Cos mDec * Cos (sRa - mRa)) in
  let inc := Atan2 (sdist * Sin phi) (mDist - sdist * Cos phi) in
  let angle := Atan2 (Cos sDec * Sin (sRa - mRa))
                     (Sin sDec * Cos mDec - Cos sDec * Sin mDec * Cos (sRa - mRa)) in
  let fraction := (1 + Cos inc) / 2 in
  let c := if angle <? 0 then -1 else 1 in
  let phase := 0.5 + 0.5 * inc * c / Pi in
  (fraction, phase, angle).

End Astro.

(** ** Go's math package

    The pure-Go implementations behind [math.Sin], [math.Cos], [math.Tan],
    [math.Asin], [math.Acos] and [math.Atan2] (after the Cephes library),
    with the argument reduction used below 2^29.  [math.Pow] is given on its
    exact special cases, the only ones [round] reaches ([places] is 0 at its
    single call site). *)

Module GoMath.
Import F64.
Local Open Scope float_scope.

Definition PI4A : float := 7.85398125648498535156e-1.
Definition PI4B : float := 3.77489470793079817668e-8.
Definition PI4C : float := 2.69515142907905952645e-15.
Definition M4PI : float := 0x1.45f306dc9c883p+0. (* 4 / Pi *)

Definition sinPoly (z zz : float) : float :=
  z + z * zz * ((((((1.58962301576546568060e-10 * zz)
    + -2.50507477628578072866e-8) * zz + 2.75573136213857245213e-6) * zz
    + -1.98412698295895385996e-4) * zz + 8.33333333332211858878e-3) * zz
    + -1.66666666666666307295e-1).

Definition cosPoly (zz : float) : float :=
  1.0 - 0.5 * zz + zz * zz * ((((((-1.13585365213876817300e-11 * zz)
    + 2.08757008419747316778e-9) * zz + -2.75573141792967388112e-7) * zz
    + 2.48015872888517045348e-5) * zz + -1.38888888888730564116e-3) * zz
    + 4.16666666666665929218e-2).

(** The octant [j] of a non-negative argument (odd octants moved up by one)
    and the reduced argument [z]. *)
Definition reduce (x : float) : Z * float :=
  let j := to_int64 (x * M4PI) in
  let y := of_int64 j in
  let '(j, y) := if Z.odd j then (Int64.add j 1, y + 1) else (j, y) in
  (j, ((x - y * PI4A) - y * PI4B) - y * PI4C).

Definition sin (x : float) : float :=
  if (x =? 0) || is_nan x then x
  else if is_infinity x then nan
  else
    let '(x, sign) := if x <? 0 then (- x, true) else (x, false) in
    let '(j, z) := reduce x in
    let j := Z.land j 7 in
    let '(j, sign) := if (3 <? j)%Z then ((j - 4)%Z, negb sign) else (j, sign) in
    let zz := z * z in
    let y := if ((j =? 1) || (j =? 2))%Z then cosPoly zz else sinPoly z zz in
    if sign then - y else y.

Definition cos (x : float) : float :=
  if is_nan x || is_infinity x then nan
  else
    let x := abs x in
    let '(j, z) := reduce x in
    let j := Z.land j 7 in
    let '(j, sign) := if (3 <? j)%Z then ((j - 4)%Z, true) else (j, false) in
    let sign := if (1 <? j)%Z then negb sign else sign in
    let zz := z * z in
    let y := if ((j =? 1) || (j =? 2))%Z then sinPoly z zz else cosPoly zz in
    if sign then - y else y.

Definition tan (x : float) : float :=
  if (x =? 0) || is_nan x then x
  else if is_infinity x then nan
  else
    let '(x, sign) := if x <? 0 then (- x, true) else (x, false) in
    let '(j, z) := reduce x in
    let zz := z * z in
    let y :=
      if 1e-14 <? zz then
        z + z * (zz * (((-1.30936939181383777646e4 * zz)
              + 1.15351664838587416140e6) * zz + -1.79565251976484877988e7)
            / ((((zz + 1.36812963470692954678e4) * zz
              + -1.32089234440210967447e6) * zz + 2.50083801823357915839e7) * zz
              + -5.38695755929454629881e7))
      else z in
    let y := if (Z.land j 2 =? 2)%Z then -1 / y else y in
    if sign then - y else y.

(** [xatan] evaluates a series valid in the range [0, 0.66]. *)
Definition xatan (x : float) : float :=
  let z := x * x in
  let z := z * ((((-8.750608600031904122785e-01 * z
               + -1.615753718733365076637e+01) * z
               + -7.500855792314704667340e+01) * z
               + -1.228866684490136173410e+02) * z
               + -6.485021904942025371773e+01)
             / (((((z + 2.485846490142306297962e+01) * z
               + 1.650270098316988542046e+02) * z
               + 4.328810604912902668951e+02) * z
               + 4.853903996359136964868e+02) * z
               + 1.945506571482613964425e+02) in
  x * z + x.

Definition halfPi : float := 0x1.921fb54442d18p+0.     (* Pi / 2 *)
Definition quarterPi : float := 0x1.921fb54442d18p-1.  (* Pi / 4 *)
Definition Morebits : float := 6.123233995736765886130e-17.
Definition halfMorebits : float := 0x1.1a62633145c07p-55. (* 0.5 * Morebits *)
Definition Tan3pio8 : float := 2.41421356237309504880.

(** [satan] reduces its positive argument to [0, 0.66] and calls [xatan]. *)
Definition satan (x : float) : float :=
  if x <=? 0.66 then xatan x
  else if Tan3pio8 <? x then halfPi - xatan (1 / x) + Morebits
  else quarterPi + xatan ((x - 1) / (x + 1)) + halfMorebits.

Definition atan (x : float) : float :=
  if x =? 0 then x
  else if 0 <? x then satan x
  else - satan (- x).

Definition asin (x : float) : float :=
  if x =? 0 then x
  else
    let '(x, sign) := if x <? 0 then (- x, true) else (x, false) in
    if 1 <? x then nan
    else
      let temp := sqrt (1 - x * x) in
      let temp := if 0.7 <? x then halfPi - satan (temp / x)
                  else satan (x / temp) in
      if sign then - temp else temp.

Definition acos (x : float) : float := halfPi - asin x.

Definition Copysign (f sign : float) : float :=
  if Bool.eqb (get_sign f) (get_sign sign) then f else - f.

Definition threeQuarterPi : float := 0x1.2d97c7f3321d2p+1. (* 3 * Pi / 4 *)

Definition atan2 (y x : float) : float :=
  if is_nan x || is_nan y then nan
  else if y =? 0 then
    if (0 <=? x) && negb (get_sign x) then Copysign 0 y else Copysign Pi y
  else if x =? 0 then Copysign halfPi y
  else if is_infinity x then
    if x =? infinity then
      if is_infinity y then Copysign quarterPi y else Copysign 0 y
    else
      if is_infinity y then Copysign threeQuarterPi y else Copysign Pi y
  else if is_infinity y then Copysign halfPi y
  else
    let q := atan (y / x) in
    if x <? 0 then (if q <=? 0 then q + Pi else q - Pi) else q.

Definition pow (x y : float) : float :=
  if (y =? 0) || (x =? 1) then 1
  else if y =? 1 then x
  else nan.

End GoMath.

#[export] Instance GoLibm : Libm := {|
  Sin := GoMath.sin; Cos := GoMath.cos; Tan := GoMath.tan;
  Asin := GoMath.asin; Acos := GoMath.acos; Atan2 := GoMath.atan2;
  Pow := GoMath.pow
|}.

(** ** Names for what [GetTimes] computes on the way

    The local variables of [GetTimes], as functions of its arguments, and the
    sequence of map writes it performs. *)

Section GetTimesParts.
Context {M : Libm}.
Import F64 Const.
Local Open Scope float_scope.

Definition noonParts (date : Instant) (lng : float)
  : float * float * float * float * float :=
  let lw := rad * - lng in
  let d := toDays date in
  let n := julianCycle d lw in
  let ds := approxTransit 0 lw n in
  let m := solarMeanAnomaly (JulianFromFloat ds) in
  let l := eclipticLongitude m in
  (lw, n, m, l, declination l 0).

Definition noonJ (date : Instant) (lng : float) : float :=
  let '(lw, n, m, l, dec) := noonParts date lng in
  solarTransitJ (approxTransit 0 lw n) m l.

(** The argument [hourAngle] passes to [math.Acos] for a definition. *)
Definition acosArg (date : Instant) (lat lng : float) (t : sunTime) : float :=
  let '(lw, n, m, l, dec) := noonParts date lng in
  let h := angle t * rad in
  let phi := rad * lat in
  (Sin h - Sin phi * Sin dec) / (Cos phi * Cos dec).

Definition setJ (date : Instant) (lat lng : float) (t : sunTime) : float :=
  let '(lw, n, m, l, dec) := noonParts date lng in
  getSetJ (angle t * rad) lw (rad * lat) dec n m l.

Definition riseJ (date : Instant) (lat lng : float) (t : sunTime) : float :=
  noonJ date lng - (setJ date lat lng t - noonJ date lng).

(** The writes of one loop iteration, in program order. *)
Definition writesOf (date : Instant) (lat lng : float) (t : sunTime)
  : list (string * Instant) :=
  (if String.eqb (riseName t) "" then []
   else [(riseName t, Time (JulianFromFloat (riseJ date lat lng t)))]) ++
  (if String.eqb (setName t) "" then []
   else [(setName t, Time (JulianFromFloat (setJ date lat lng t)))]).

(** The names a definition emits: its non-empty sides. *)
Definition namesOf (t : sunTime) : list string :=
  (if String.eqb (riseName t) "" then [] else [riseName t]) ++
  (if String.eqb (setName t) "" then [] else [setName t]).

(** What [GetMoonPosition] holds in [h] before the refraction term is
    added, and what [GetMoonIllumination] holds in [inc]. *)
Definition moonBaseAltitude (date : Instant) (lat lng : float) : float :=
  let d := toDays date in
  let '(dec, ra, _) := moonCoords d in
  altitude (siderealTime d (rad * - lng) - ra) (rad * lat) dec.

Definition refraction (h : float) : float :=
  rad0_017 / Tan (h + rad10_26 / (h + rad5_10)).

Definition moonInc (date : Instant) : float :=
  let d := toDays date in
  let '(sDec, sRa) := sunCoords d in
  let '(mDec, mRa, mDist) := moonCoords d in
  let phi := Acos (Sin sDec * Sin mDec + Cos sDec * Cos mDec * Cos (sRa - mRa)) in
  Atan2 (sdist * Sin phi) (mDist - sdist * Cos phi).

(** What [GetMoonIllumination] holds in [angle]: the angle of the bright
    limb. *)
Definition limbAngle (date : Instant) : float :=
  let d := toDays date in
  let '(sDec, sRa) := sunCoords d in
  let '(mDec, mRa, mDist) := moonCoords d in
  Atan2 (Cos sDec * Sin (sRa - mRa))
        (Sin sDec * Cos mDec - Cos sDec * Sin mDec * Cos (sRa - mRa)).

End GetTimesParts.

(** ** Calculators in memory

    A [SunCalc] is a struct holding a slice: a pointer to a backing array, a
    length and a capacity.  [NewSunCalc] returns the struct by value and
    [s2 := s1] copies the three words, not the array, so two calculators
    can show the same array.  [AddTime] is [append]: it writes the cell after
    the receiver's length when the capacity allows, into an array another
    calculator may be showing, and moves to a new array otherwise.  The
    record [SunCalc] above is what a calculator shows: the first [len] cells
    of its array. *)

Record slice : Type := mkSlice { ptr : nat; len : nat; cap : nat }.

(** The zero value of a [SunCalc] holds the nil slice. *)
Definition nilSlice : slice := mkSlice 0 0 0.

(** The zero value of a [sunTime], which fills the spare cells of an array. *)
Definition zeroSunTime : sunTime := mkSunTime 0%float "" "".

(** The backing arrays by address, and the calculator variables of a
    program by name. *)
Record memory : Type := mkMemory {
  arrays : list (list sunTime);
  vars : gmap string slice
}.

Definition emptyMemory : memory := mkMemory [] ∅.

Definition arrayAt (h : list (list sunTime)) (p : nat) : list sunTime :=
  default [] (h !! p).

(** [s[0:len(s)]] *)
Definition elems (h : list (list sunTime)) (s : slice) : list sunTime :=
  take (len s) (arrayAt h (ptr s)).

Definition sliceOf (m : memory) (v : string) : slice :=
  default nilSlice (vars m !! v).

(** What the calculator in variable [v] shows. *)
Definition calcOf (m : memory) (v : string) : SunCalc :=
  mkSunCalc (elems (arrays m) (sliceOf m v)).

(** The composite literal of [NewSunCalc]: a new array holding the six
    definitions, with no spare cell. *)
Definition newSunCalc (h : list (list sunTime)) : list (list sunTime) * slice :=
  (h ++ [times NewSunCalc], mkSlice (length h) 6 6).

(** The statements of a program that uses calculators:
    [v := NewSunCalc()], [v := w], and the three methods on [v]. *)
Inductive stmt : Type :=
  | New (v : string)
  | Copy (v w : string)
  | CallAddTime (v : string) (angle : float) (riseName setName : string)
  | CallGetTimes (v : string) (date : Instant) (lat lng : float)
  | CallGetPosition (v : string) (date : Instant) (lat lng : float).

Inductive reply : Type :=
  | Position (azim alti : float)
  | Times (result : gmap string Instant)
  | Done.

Section Runtime.
(** The capacity the runtime chooses when [append] has to move the
    elements: a function of the old capacity and the length needed. *)
Variable growslice : nat -> nat -> nat.

(** [append(s, x)] *)
Definition append (h : list (list sunTime)) (s : slice) (x : sunTime)
  : list (list sunTime) * slice :=
  if (len s <? cap s)%nat then
    (alter (fun a => <[len s := x]> a) (ptr s) h,
     mkSlice (ptr s) (S (len s)) (cap s))
  else
    let c := growslice (cap s) (S (len s)) in
    (h ++ [elems h s ++ x :: replicate (c - S (len s)) zeroSunTime],
     mkSlice (length h) (S (len s)) c).

Definition exec {M : Libm} (m : memory) (c : stmt) : memory * reply :=
  match c with
  | New v =>
      let '(h, s) := newSunCalc (arrays m) in
      (mkMemory h (<[v := s]> (vars m)), Done)
  | Copy v w => (mkMemory (arrays m) (<[v := sliceOf m w]> (vars m)), Done)
  | CallAddTime v a r n =>
      let '(h, s) := append (arrays m) (sliceOf m v) (mkSunTime a r n) in
      (mkMemory h (<[v := s]> (vars m)), Done)
  | CallGetTimes v date lat lng =>
      (m, Times (GetTimes (calcOf m v) date lat lng))
  | CallGetPosition v date lat lng =>
      let '(azim, alti) := GetPosition (calcOf m v) date lat lng in
      (m, Position azim alti)
  end.

Definition run {M : Libm} (m : memory) (p : list stmt) : memory :=
  foldl (fun m c => fst (exec m c)) m p.

End Runtime.

(** The growth of small slices (capacity below 256): the capacity doubles,
    unless more is needed. *)
Definition doubling (oldCap needed : nat) : nat :=
  if (2 * oldCap <? needed)%nat then needed else (2 * oldCap)%nat.

(** A slice stays inside its array. *)
Definition slice_ok (h : list (list sunTime)) (s : slice) : Prop :=
  (len s <= length (arrayAt h (ptr s)) /\ cap s <= length (arrayAt h (ptr s)))%nat.

Definition memory_ok (m : memory) : Prop :=
  forall v s, vars m !! v = Some s -> slice_ok (arrays m) s.

(** No two variables show the same array. *)
Definition separate (m : memory) : Prop :=
  (forall v s, vars m !! v = Some s -> (ptr s < length (arrays m))%nat) /\
  (forall v w sv sw, v <> w -> vars m !! v = Some sv -> vars m !! w = Some sw ->
     ptr sv <> ptr sw).

(** A program without struct copies. *)
Definition copyFree (p : list stmt) : bool :=
  forallb (fun c => match c with Copy _ _ => false | _ => true end) p.

(** A program that does not assign to [v]. *)
Definition keeps (v : string) (p : list stmt) : bool :=
  forallb (fun c => match c with
                    | New u | Copy u _ => negb (String.eqb u v)
                    | _ => true
                    end) p.

(** The definitions a program adds to [v]. *)
Definition addedTo (v : string) (p : list stmt) : list sunTime :=
  flat_map (fun c => match c with
                     | CallAddTime u a r n =>
                         if String.eqb u v then [mkSunTime a r n] else []
                     | _ => []
                     end) p.

(** A calculator that has room for one more definition, its copy, and one
    call of [AddTime] on each. *)
Definition aliasing : list stmt :=
  [ New "s1"; CallAddTime "s1" 1%float "a" "b"; Copy "s2" "s1";
    CallAddTime "s1" 2%float "c" "d"; CallAddTime "s2" 3%float "e" "f" ].

(** ** Ranges, as the tests would check them *)

Module Range.
Import F64 Const.
Local Open Scope float_scope.

(** [0 <= x < 2π] *)
Definition in_0_2pi (x : float) : bool := (0 <=? x) && (x <? twoPi).
(** [-π < x <= π] *)
Definition azimuth_ok (x : float) : bool := (- Pi <? x) && (x <=? Pi).
(** [-π/2 <= x <= π/2] *)
Definition altitude_ok (x : float) : bool :=
  (- GoMath.halfPi <=? x) && (x <=? GoMath.halfPi).
(** [time] in [0, 86400e9) *)
Definition timeOfDay_ok (j : JulianDate) : bool :=
  ((0 <=? time j) && (time j <? 86400000000000))%Z.

(** [testNear] of the test file. *)
Definition testNear (current good : float) : bool :=
  negb (1e-15 <=? abs (current - good)).
End Range.

(** Assumptions on [math], from its documentation. *)
Section LibmDoc.
Context (M : Libm).
Import F64.
Local Open Scope float_scope.

(** [Acos(x) = NaN if x < -1 or x > 1] *)
Definition acos_domain : Prop :=
  forall x, (x <? -1) || (1 <? x) = true -> Acos x = nan.

(** [Atan2] returns an angle in [[-π, π]], or NaN. *)
Definition atan2_range : Prop :=
  forall y x, Atan2 y x = nan \/
              ((- Pi <=? Atan2 y x) && (Atan2 y x <=? Pi) = true).

(** [Asin] returns an angle in [[-π/2, π/2]], or NaN. *)
Definition asin_range : Prop :=
  forall x, Asin x = nan \/
            ((- GoMath.halfPi <=? Asin x) && (Asin x <=? GoMath.halfPi) = true).

(** [Pow(x, ±0) = 1 for any x] *)
Definition pow_zero : Prop := forall x, Pow x 0 = 1.
End LibmDoc.

(** Writing a list of entries in order; a later entry replaces an earlier one
    under the same key. *)
Definition writeAll (m : gmap string Instant) (w : list (string * Instant))
  : gmap string Instant :=
  foldl (fun m kv => <[kv.1 := kv.2]> m) m w.

(** The instant and the place of the repository's tests:
    [Jul 29 2014 19:03:25] UTC, latitude 31.783, longitude 35.233. *)
Definition testDate : Instant := mkInstant 1406660605 0.
Definition testLat : float := 31.783%float.
Definition testLng : float := 35.233%float.

(** An instant at which sun and moon have the same right ascension to the
    last bit: 2030-07-30 14:54:55.075359309 UTC, a new moon. *)
Definition newMoonDate : Instant := mkInstant 1911653695 75359309.

(** The Julian date [GetTimes] hands to [solarMeanAnomaly]: the approximate
    transit, in days since J2000, through [JulianFromFloat]. *)
Definition transitDate {M : Libm} (date : Instant) (lng : float) : JulianDate :=
  let '(lw, n, _, _, _) := noonParts date lng in
  JulianFromFloat (approxTransit 0%float lw n).

(** The value [julianCycle] rounds. *)
Definition cycleArg (d : JulianDate) (lw : float) : float :=
  (F64.of_int64 (julianDayNumber d) + F64.of_int64 (time d) / 86400e9
   - Const.j0 - lw / Const.twoPi)%float.

(** The integer part and the unnormalised angle of [solarMeanAnomaly] and
    [siderealTime]. *)
Definition maDegrees (d : JulianDate) : Z :=
  Int64.rem (Int64.add Const.maCoef0Nano
               (Int64.mul (julianDayNumber d) Const.maCoef1Nano)) 360000000000.

Definition maRaw (d : JulianDate) : float :=
  (Const.rad * (F64.of_int64 (maDegrees d) / 1e9
                + F64.of_int64 (time d) / 86400 * Const.maRate))%float.

Definition stDegrees (d : JulianDate) : Z :=
  Int64.rem (Int64.add Const.stCoef0Nano
               (Int64.mul (julianDayNumber d) Const.stCoef1Nano)) 360000000000.

Definition stRaw (d : JulianDate) (lw : float) : float :=
  (Const.rad * (F64.of_int64 (stDegrees d) / 1e9
                + F64.of_int64 (time d) / 86400 * Const.stRate) - lw)%float.

(** Go's functions with the documented range of [Atan2] and [Asin] checked
    on the way out: a result outside the range becomes not-a-number. *)
Definition checkedAtan2 (y x : float) : float :=
  let r := GoMath.atan2 y x in
  if ((- F64.Pi <=? r) && (r <=? F64.Pi))%float then r else nan.

Definition checkedAsin (x : float) : float :=
  let r := GoMath.asin x in
  if ((- GoMath.halfPi <=? r) && (r <=? GoMath.halfPi))%float then r else nan.

Definition CheckedLibm : Libm := {|
  Sin := GoMath.sin; Cos := GoMath.cos; Tan := GoMath.tan;
  Asin := checkedAsin; Acos := GoMath.acos; Atan2 := checkedAtan2;
  Pow := GoMath.pow
|}.

(** ** Instants and Julian dates as counts of nanoseconds *)

(** Nanoseconds since the Unix epoch. *)
Definition unixNanos (t : Instant) : Z := unix t * 1000000000 + nanosecond t.

(** Nanoseconds since noon of Julian day 0. *)
Definition julianNanos (j : JulianDate) : Z :=
  julianDayNumber j * 86400000000000 + time j.

(** A Julian date whose time lies within its day. *)
Definition Julian_ok (j : JulianDate) : Prop :=
  Int64.in_range (julianDayNumber j) /\ 0 <= time j < 86400000000000.

(** Nanoseconds from noon of Julian day 0 to the Unix epoch:
    [j1970 * 86400e9 - 43200e9]. *)
Definition epochNanos : Z := 2440588 * 86400000000000 - 43200000000000.

(** The instant a Julian date that is not a number converts to. *)
Definition nanInstant : Instant := Time (JulianFromFloat nan).

(** The special cases of Go's [math] for a NaN argument:
    [Sin(NaN) = NaN], [Cos(NaN) = NaN], [Asin(NaN) = NaN], [Acos(NaN) = NaN],
    [Atan2(y, NaN) = NaN], [Atan2(NaN, x) = NaN]. *)
Definition nan_propagating (M : Libm) : Prop :=
  Sin nan = nan /\ Cos nan = nan /\ Asin nan = nan /\ Acos nan = nan /\
  (forall y, Atan2 y nan = nan) /\ (forall x, Atan2 nan x = nan).

(** The range of day numbers (relative to J2000) on which the integer part
    of [siderealTime] does not overflow. *)
Definition degrees_exact (jdn : Z) : Prop := -25000000 <= jdn <= 25000000.

(** ** Properties of the integer layer *)

Module Int64Facts.
Import Int64.

Lemma wrap_in_range z : in_range (wrap z).
Proof.
  unfold in_range, wrap, min_int, max_int, modulus.
  pose proof (Z.mod_pos_bound (z + 2 ^ 63) (2 ^ 64)). lia.
Qed.

Lemma wrap_small z : in_range z -> wrap z = z.
Proof.
  unfold in_range, wrap, min_int, max_int, modulus. intros H.
  rewrite Z.mod_small; lia.
Qed.

Lemma wrap_eqm z : (wrap z) mod modulus = z mod modulus.
Proof.
  unfold wrap, modulus.
  rewrite Zminus_mod, Zmod_mod, <- Zminus_mod. f_equal. lia.
Qed.

(** Two integers in range that agree modulo 2^64 are equal. *)
Lemma in_range_eqm a b :
  in_range a -> in_range b -> a mod modulus = b mod modulus -> a = b.
Proof.
  unfold in_range, min_int, max_int, modulus. intros Ha Hb H.
  assert (E : (a + 2 ^ 63) mod 2 ^ 64 = (b + 2 ^ 63) mod 2 ^ 64).
  { rewrite (Zplus_mod a), (Zplus_mod b), H. reflexivity. }
  rewrite !Z.mod_small in E; lia.
Qed.

Lemma wrap_unique z r :
  in_range r -> r mod modulus = z mod modulus -> wrap z = r.
Proof.
  intros Hr H. apply in_range_eqm; auto using wrap_in_range.
  rewrite wrap_eqm. congruence.
Qed.

End Int64Facts.

Module Int64Arith.
Import Int64 Int64Facts.

Lemma wrap_add_l a b : wrap (wrap a + b) = wrap (a + b).
Proof.
  apply wrap_unique; [apply wrap_in_range|].
  rewrite wrap_eqm, Zplus_mod, <- (wrap_eqm a), <- Zplus_mod. reflexivity.
Qed.

Lemma wrap_add_r a b : wrap (a + wrap b) = wrap (a + b).
Proof. rewrite (Z.add_comm a), wrap_add_l. f_equal. lia. Qed.

Lemma wrap_sub_l a b : wrap (wrap a - b) = wrap (a - b).
Proof. unfold Z.sub. apply wrap_add_l. Qed.

Lemma wrap_mul_l a b : wrap (wrap a * b) = wrap (a * b).
Proof.
  apply wrap_unique; [apply wrap_in_range|].
  rewrite wrap_eqm, Zmult_mod, <- (wrap_eqm a), <- Zmult_mod. reflexivity.
Qed.

Lemma wrap_sub_r a b : wrap (a - wrap b) = wrap (a - b).
Proof.
  apply wrap_unique; [apply wrap_in_range|].
  rewrite wrap_eqm, Zminus_mod, <- (wrap_eqm b), <- Zminus_mod. reflexivity.
Qed.

End Int64Arith.

Section JulianRoundTrip.
Import Int64 Int64Facts Int64Arith.

(** On a positive divisor [integerDivide] is floor division. *)
Lemma integerDivide_floor a :
  in_range a -> integerDivide a daySec = (a / daySec, a mod daySec).
Proof.
  intros Ha. unfold integerDivide, quo, rem, sub, add, daySec.
  change (60 * 60 * 24) with 86400.
  assert (Hq : in_range (a ÷ 86400)).
  { unfold in_range, min_int, max_int in *. simpl in *.
    Z.to_euclidean_division_equations. lia. }
  rewrite (wrap_small _ Hq).
  destruct (Z.rem a 86400 <? 0) eqn:E.
  - apply Z.ltb_lt in E.
    rewrite !wrap_small.
    + f_equal; Z.to_euclidean_division_equations; lia.
    + unfold in_range, min_int, max_int in *. simpl in *.
      Z.to_euclidean_division_equations. lia.
    + unfold in_range, min_int, max_int in *. simpl in *.
      Z.to_euclidean_division_equations. lia.
  - apply Z.ltb_ge in E.
    f_equal; Z.to_euclidean_division_equations; lia.
Qed.

Ltac range := unfold in_range, min_int, max_int in *; simpl in *; lia.

(** What [NewJulian] stores, in mathematical integers: the day number of the
    noon-based Julian day and the nanoseconds elapsed in it. *)
Lemma NewJulian_eq t :
  Instant_ok t ->
  let d := unix t / 86400 in
  let ns := (unix t mod 86400) * 1000000000 + nanosecond t in
  NewJulian t =
    if ns <? 43200000000000
    then mkJulian (d + 2440588 - 1) (ns + 43200000000000)
    else mkJulian (d + 2440588) (ns - 43200000000000).
Proof.
  intros [Hs Hn] d ns. unfold NewJulian.
  rewrite (integerDivide_floor _ Hs). unfold daySec.
  change (60 * 60 * 24) with 86400. fold d.
  pose proof (Z.mod_pos_bound (unix t) 86400 ltac:(lia)) as Hm.
  assert (Hd : - 2 ^ 63 - 86400 <= d * 86400 <= 2 ^ 63).
  { pose proof (Z.div_mod (unix t) 86400 ltac:(lia)) as Hdm. fold d in Hdm.
    unfold in_range, min_int, max_int in Hs. lia. }
  unfold removeHalfDay, halfDayNano, j1970, add, sub, mul. simpl julianDayNumber. simpl time.
  change (1000000000 * 60 * 60 * 12) with 43200000000000.
  rewrite (wrap_small (unix t mod 86400 * 1000000000)) by range.
  rewrite (wrap_small (unix t mod 86400 * 1000000000 + nanosecond t)) by range.
  fold ns.
  rewrite (wrap_small (d + 2440588)) by range.
  destruct (ns <? 43200000000000) eqn:E;
    [apply Z.ltb_lt in E | apply Z.ltb_ge in E];
    rewrite !wrap_small; try reflexivity; subst ns; range.
Qed.

(** C1.  For every instant [t] (seconds in the [int64] range, nanoseconds in
    [0, 10^9)), converting to a Julian date with [NewJulian] and back with
    [Time] returns exactly [t]. *)
Theorem Time_NewJulian t : Instant_ok t -> Time (NewJulian t) = t.
Proof.
  intros Hok. pose proof Hok as [Hs Hn].
  rewrite (NewJulian_eq t Hok). cbv zeta.
  set (d := unix t / 86400). set (r := unix t mod 86400).
  pose proof (Z.mod_pos_bound (unix t) 86400 ltac:(lia)) as Hm. fold r in Hm.
  pose proof (Z.div_mod (unix t) 86400 ltac:(lia)) as Hdm. fold d r in Hdm.
  destruct t as [s n]. simpl in *.
  destruct (r * 1000000000 + n <? 43200000000000) eqn:E;
    [apply Z.ltb_lt in E | apply Z.ltb_ge in E];
    unfold Time, time_Unix, j1970, daySec, halfDaySec, add, sub, mul, quo;
    simpl julianDayNumber; simpl time;
    change (60 * 60 * 24) with 86400; change (60 * 60 * 12) with 43200.
  - (* before noon: the day number was decremented *)
    replace (r * 1000000000 + n + 43200000000000 <? 0) with false
      by (symmetry; apply Z.ltb_ge; lia).
    replace (1000000000 <=? r * 1000000000 + n + 43200000000000) with true
      by (symmetry; apply Z.leb_le; lia).
    simpl orb. cbv iota.
    assert (Hq : (r * 1000000000 + n + 43200000000000) ÷ 1000000000 = r + 43200).
    { Z.to_euclidean_division_equations. lia. }
    rewrite Hq. rewrite (wrap_small (r + 43200)) by range.
    rewrite (wrap_small ((r + 43200) * 1000000000)) by range.
    replace (r * 1000000000 + n + 43200000000000 - (r + 43200) * 1000000000)
      with n by lia.
    rewrite (wrap_small n) by range.
    replace (n <? 0) with false by (symmetry; apply Z.ltb_ge; lia).
    f_equal.
    rewrite wrap_mul_l, (wrap_add_l (_ * _) 43200), wrap_add_l.
    replace ((d + 2440588 - 1 - 2440588) * 86400 + 43200 + (r + 43200)) with s by lia.
    apply wrap_small; assumption.
  - (* from noon on *)
    replace (r * 1000000000 + n - 43200000000000 <? 0) with false
      by (symmetry; apply Z.ltb_ge; lia).
    assert (Hr : 43200 <= r) by lia.
    destruct (1000000000 <=? r * 1000000000 + n - 43200000000000) eqn:E1;
      [apply Z.leb_le in E1 | apply Z.leb_gt in E1]; simpl orb; cbv iota.
    + assert (Hq : (r * 1000000000 + n - 43200000000000) ÷ 1000000000 = r - 43200).
      { Z.to_euclidean_division_equations. lia. }
      rewrite Hq. rewrite (wrap_small (r - 43200)) by range.
      rewrite (wrap_small ((r - 43200) * 1000000000)) by range.
      replace (r * 1000000000 + n - 43200000000000 - (r - 43200) * 1000000000)
        with n by lia.
      rewrite (wrap_small n) by range.
      replace (n <? 0) with false by (symmetry; apply Z.ltb_ge; lia).
      f_equal.
      rewrite wrap_mul_l, (wrap_add_l (_ * _) 43200), wrap_add_l.
      replace ((d + 2440588 - 2440588) * 86400 + 43200 + (r - 43200)) with s by lia.
      apply wrap_small; assumption.
    + assert (r = 43200) by lia. subst r.
      f_equal; [|lia].
      rewrite wrap_mul_l, wrap_add_l.
      replace ((d + 2440588 - 2440588) * 86400 + 43200) with s by lia.
      apply wrap_small; assumption.
Qed.

Lemma Time_NewJulian_witness :
  Time (NewJulian (mkInstant 1406660605 0)) = mkInstant 1406660605 0.
Proof.
  apply (Time_NewJulian (mkInstant 1406660605 0)).
  split; [split; vm_compute; discriminate | simpl; lia].
Defined.

End JulianRoundTrip.

(** ** Facts about binary64 arithmetic *)

Module F64Facts.
Import F64.
Local Open Scope float_scope.

Lemma Prim2SF_nan : Prim2SF nan = S754_nan.
Proof. reflexivity. Qed.

Lemma is_nan_eq x : is_nan x = true -> x = nan.
Proof.
  intros H. apply Prim2SF_inj. rewrite Prim2SF_nan.
  unfold is_nan in H. rewrite FloatAxioms.eqb_spec in H.
  destruct (Prim2SF x) as [s | s | | s m e]; try reflexivity; exfalso.
  - discriminate H.
  - destruct s; discriminate H.
  - unfold SFeqb, SFcompare in H. rewrite Z.compare_refl in H.
    rewrite Pos.compare_cont_refl in H. destruct s; discriminate H.
Qed.

Ltac nan_arith spec :=
  intros; apply Prim2SF_inj; rewrite spec, Prim2SF_nan;
  match goal with |- context [Prim2SF ?x] => destruct (Prim2SF x) end;
  reflexivity.

Lemma add_nan_l x : nan + x = nan. Proof. nan_arith add_spec. Qed.
Lemma add_nan_r x : x + nan = nan. Proof. nan_arith add_spec. Qed.
Lemma sub_nan_l x : nan - x = nan. Proof. nan_arith sub_spec. Qed.
Lemma sub_nan_r x : x - nan = nan. Proof. nan_arith sub_spec. Qed.
Lemma mul_nan_l x : nan * x = nan. Proof. nan_arith mul_spec. Qed.
Lemma mul_nan_r x : x * nan = nan. Proof. nan_arith mul_spec. Qed.
Lemma div_nan_l x : nan / x = nan. Proof. nan_arith div_spec. Qed.
Lemma div_nan_r x : x / nan = nan. Proof. nan_arith div_spec. Qed.

Lemma SFcompare_opp x y :
  SFcompare (SFopp x) (SFopp y) = SFcompare y x.
Proof.
  destruct x as [sx | sx | | sx mx ex], y as [sy | sy | | sy my ey];
    try reflexivity;
    try (destruct sx; reflexivity); try (destruct sy; reflexivity);
    try (destruct sx, sy; reflexivity).
  destruct sx, sy; simpl; try reflexivity;
    rewrite (Z.compare_antisym ex ey);
    destruct (ex ?= ey)%Z; simpl; try reflexivity;
    rewrite (Pos.compare_cont_antisym _ _ Eq); simpl;
    try rewrite CompOpp_involutive; reflexivity.
Qed.

Lemma ltb_opp x y : (- y <? - x) = (x <? y).
Proof.
  rewrite !ltb_spec, !opp_spec. unfold SFltb. rewrite SFcompare_opp. reflexivity.
Qed.

End F64Facts.

(** ** The map [GetTimes] builds *)

Section WriteAll.
Implicit Types (m : gmap string Instant) (w : list (string * Instant)).

Lemma writeAll_app m w1 w2 :
  writeAll m (w1 ++ w2) = writeAll (writeAll m w1) w2.
Proof. apply foldl_app. Qed.

Lemma writeAll_cons m k v w : writeAll m ((k, v) :: w) = writeAll (<[k := v]> m) w.
Proof. reflexivity. Qed.

Lemma dom_writeAll m w : dom (writeAll m w) = dom m ∪ list_to_set w.*1.
Proof.
  revert m. induction w as [|[k v] w IH]; intros m.
  - unfold writeAll. simpl. set_solver.
  - rewrite writeAll_cons, IH, dom_insert_L, fmap_cons, list_to_set_cons.
    simpl. set_solver.
Qed.

Lemma lookup_writeAll_notin m w k :
  k ∉ w.*1 -> writeAll m w !! k = m !! k.
Proof.
  revert m. induction w as [|[k' v] w IH]; intros m Hk.
  - reflexivity.
  - rewrite fmap_cons in Hk. simpl in Hk.
    apply not_elem_of_cons in Hk as [Hne Hk].
    rewrite writeAll_cons, IH by assumption.
    apply lookup_insert_ne. congruence.
Qed.

(** The entry found under [k] is the last one written there. *)
Lemma lookup_writeAll_last m w1 k v w2 :
  k ∉ w2.*1 -> writeAll m (w1 ++ (k, v) :: w2) !! k = Some v.
Proof.
  intros Hk. rewrite writeAll_app, writeAll_cons.
  rewrite lookup_writeAll_notin by assumption.
  apply lookup_insert_eq.
Qed.

End WriteAll.

Section GetTimesFacts.
Context {M : Libm}.
Import F64 Const.
Local Open Scope float_scope.

Lemma fst_writesOf date lat lng t : (writesOf date lat lng t).*1 = namesOf t.
Proof.
  unfold writesOf, namesOf.
  destruct (String.eqb (riseName t) ""), (String.eqb (setName t) ""); reflexivity.
Qed.

Lemma fst_flat_map_writesOf date lat lng l :
  (flat_map (writesOf date lat lng) l).*1 = flat_map namesOf l.
Proof.
  induction l as [|t l IH]; simpl; [reflexivity|].
  rewrite fmap_app, fst_writesOf, IH. reflexivity.
Qed.

(** [GetTimes] is the sequence of its writes. *)
Lemma GetTimes_writes s date lat lng :
  GetTimes s date lat lng =
  writeAll ∅
    (("solarNoon", Time (JulianFromFloat (noonJ date lng))) ::
     ("nadir", Time (JulianFromFloat (noonJ date lng - 0.5))) ::
     flat_map (writesOf date lat lng) (times s)).
Proof.
  unfold GetTimes. rewrite !writeAll_cons. simpl fst. simpl snd.
  change (solarTransitJ _ _ _) with (noonJ date lng).
  generalize (<["nadir":=Time (JulianFromFloat (noonJ date lng - 0.5))]>
                (<["solarNoon":=Time (JulianFromFloat (noonJ date lng))]>
                   (∅ : gmap string Instant))).
  induction (times s) as [|t l IH]; intros m; simpl; [reflexivity|].
  rewrite IH, writeAll_app. f_equal.
  unfold writesOf.
  change (getSetJ _ _ _ _ _ _ _) with (setJ date lat lng t).
  change (noonJ date lng - (setJ date lat lng t - noonJ date lng))
    with (riseJ date lat lng t).
  destruct (String.eqb (riseName t) ""), (String.eqb (setName t) ""); reflexivity.
Qed.

Lemma elem_of_namesOf t k :
  k ∈ namesOf t <-> (k = riseName t \/ k = setName t) /\ k <> "".
Proof.
  unfold namesOf.
  destruct (String.eqb_spec (riseName t) ""), (String.eqb_spec (setName t) "");
    simpl; rewrite ?elem_of_cons, ?elem_of_nil; intuition congruence.
Qed.

Lemma NoDup_app_inv_mid {A} (l1 : list A) x l2 :
  NoDup (l1 ++ x :: l2) -> x ∉ l2.
Proof.
  intros H. apply NoDup_app in H as (_ & _ & H).
  apply NoDup_cons in H. tauto.
Qed.

(** C7, amended.  The keys of the result are [solarNoon], [nadir] and the
    non-empty configured names, whatever the definitions; [solarNoon] and
    [nadir] hold the transit and the instant half a Julian day before it
    unless a configured name replaces them; and when the configured
    non-empty names are pairwise distinct every definition has its rise
    entry under [riseName] and its set entry under [setName]. *)
Theorem GetTimes_entries s date lat lng :
  let result := GetTimes s date lat lng in
  let names := flat_map namesOf (times s) in
  dom result = {["solarNoon"; "nadir"]} ∪ list_to_set names /\
  ("solarNoon" ∉ names ->
     result !! "solarNoon" = Some (Time (JulianFromFloat (noonJ date lng)))) /\
  ("nadir" ∉ names ->
     result !! "nadir" = Some (Time (JulianFromFloat (noonJ date lng - 0.5)))) /\
  (NoDup names -> forall t, t ∈ times s ->
     (riseName t <> "" ->
        result !! riseName t = Some (Time (JulianFromFloat (riseJ date lat lng t)))) /\
     (setName t <> "" ->
        result !! setName t = Some (Time (JulianFromFloat (setJ date lat lng t))))).
Proof.
  intros result names. subst result. rewrite GetTimes_writes.
  set (w := flat_map (writesOf date lat lng) (times s)).
  assert (Hw : w.*1 = names) by apply fst_flat_map_writesOf.
  split; [|split; [|split]].
  - rewrite dom_writeAll, !fmap_cons, Hw. simpl. set_solver.
  - intros Hn. rewrite !writeAll_cons, lookup_writeAll_notin by (rewrite Hw; exact Hn).
    rewrite lookup_insert_ne by discriminate. apply lookup_insert_eq.
  - intros Hn. rewrite !writeAll_cons, lookup_writeAll_notin by (rewrite Hw; exact Hn).
    apply lookup_insert_eq.
  - intros Hnd t Ht.
    apply list_elem_of_split in Ht as (l1 & l2 & Hl).
    subst w names. rewrite Hl in *. clear Hl Hw.
    rewrite flat_map_app in Hnd. simpl in Hnd.
    rewrite flat_map_app. simpl.
    rewrite <- !fst_flat_map_writesOf with (date := date) (lat := lat) (lng := lng) in Hnd.
    set (w1 := flat_map (writesOf date lat lng) l1) in *.
    set (w2 := flat_map (writesOf date lat lng) l2) in *.
    unfold namesOf in Hnd. unfold writesOf.
    split; intros Hne.
    + assert (Er : String.eqb (riseName t) "" = false) by (apply String.eqb_neq; exact Hne).
      rewrite Er in *. simpl in *.
      apply NoDup_app_inv_mid in Hnd.
      rewrite !app_comm_cons.
      destruct (String.eqb (setName t) "") eqn:Es; simpl in *.
      * apply lookup_writeAll_last. exact Hnd.
      * apply not_elem_of_cons in Hnd as [Hrs Hnd].
        rewrite writeAll_app, !writeAll_cons, lookup_writeAll_notin by exact Hnd.
        simpl. rewrite lookup_insert_ne by congruence. apply lookup_insert_eq.
    + assert (Es : String.eqb (setName t) "" = false) by (apply String.eqb_neq; exact Hne).
      rewrite Es in *.
      destruct (String.eqb (riseName t) "") eqn:Er; simpl in *.
      * apply NoDup_app_inv_mid in Hnd.
        apply lookup_writeAll_last. exact Hnd.
      * replace (w1.*1 ++ riseName t :: setName t :: w2.*1)
          with ((w1.*1 ++ [riseName t]) ++ setName t :: w2.*1) in Hnd
          by (rewrite <- app_assoc; reflexivity).
        apply NoDup_app_inv_mid in Hnd.
        match goal with
        | |- writeAll ?m (w1 ++ ?a :: ?b :: w2) !! _ = _ =>
            replace (w1 ++ a :: b :: w2) with ((w1 ++ [a]) ++ b :: w2)
              by (rewrite <- app_assoc; reflexivity)
        end.
        apply lookup_writeAll_last. exact Hnd.
Qed.

End GetTimesFacts.

(** ** The calculator's definition list *)

Section Calculator.
Context {M : Libm}.

(** C9.  [JulianFromDayTime] followed by [DayTime] returns the pair it was
    given, for every pair of integers: nothing is normalised, clamped or
    checked. *)
Theorem DayTime_JulianFromDayTime (n t : Z) :
  DayTime (JulianFromDayTime n t) = (n, t).
Proof. reflexivity. Qed.

Lemma GetTimes_dom s date lat lng :
  dom (GetTimes s date lat lng)
  = {["solarNoon"; "nadir"]} ∪ list_to_set (flat_map namesOf (times s)).
Proof.
  rewrite GetTimes_writes, dom_writeAll, !fmap_cons, fst_flat_map_writesOf.
  simpl. set_solver.
Qed.

Lemma GetTimes_emits s date lat lng t k :
  t ∈ times s -> k ∈ namesOf t -> is_Some (GetTimes s date lat lng !! k).
Proof.
  intros Ht Hk. apply elem_of_dom.
  rewrite GetTimes_dom.
  apply elem_of_union_r, elem_of_list_to_set, list_elem_of_In, in_flat_map.
  exists t. split; apply list_elem_of_In; assumption.
Qed.

End Calculator.

(** ** Moon illumination *)

Section Illumination.
Context {M : Libm}.
Import F64 Const.
Local Open Scope float_scope.

(** C8.  The angle returned is the limb angle the code computes, and the
    phase is [0.5 + 0.5·inc·sign/π] with the sign taken from that angle:
    [-1] when it is below zero and [+1] otherwise; in particular a limb
    angle of zero (of either sign) takes [+1]. *)
Theorem GetMoonIllumination_phase date :
  let '(fraction, phase, angle) := GetMoonIllumination date in
  angle = limbAngle date /\
  phase = 0.5 + 0.5 * moonInc date * (if limbAngle date <? 0 then -1 else 1) / Pi /\
  ((limbAngle date <? 0) = true ->
     phase = 0.5 + 0.5 * moonInc date * -1 / Pi) /\
  ((limbAngle date <? 0) = false ->
     phase = 0.5 + 0.5 * moonInc date * 1 / Pi) /\
  (limbAngle date = 0 \/ limbAngle date = -0 ->
     phase = 0.5 + 0.5 * moonInc date * 1 / Pi).
Proof.
  unfold GetMoonIllumination, moonInc, limbAngle.
  destruct (sunCoords (toDays date)) as [sDec sRa].
  destruct (moonCoords (toDays date)) as [[mDec mRa] mDist].
  set (a := Atan2 _ _). set (inc := Atan2 _ _).
  split; [reflexivity|]. split; [reflexivity|].
  split; [intros ->; reflexivity|].
  split; [intros ->; reflexivity|].
  intros [E|E]; rewrite E; reflexivity.
Qed.

End Illumination.

(** ** Domain violations in [GetTimes] *)

Section AcosDomain.
Context {M : Libm}.
Import F64 Const F64Facts.
Local Open Scope float_scope.

Lemma approxTransit_nan lw n : approxTransit nan lw n = nan.
Proof.
  unfold approxTransit.
  rewrite add_nan_l, div_nan_l, add_nan_r, add_nan_l. reflexivity.
Qed.

Lemma solarTransitJ_nan m l : solarTransitJ nan m l = nan.
Proof.
  unfold solarTransitJ. rewrite add_nan_r, add_nan_l, sub_nan_l. reflexivity.
Qed.

(** Outside [-1, 1] the hour angle is not a number, and so are the set and
    rise times computed from it. *)
Lemma setJ_riseJ_nan date lat lng t :
  acos_domain M ->
  (acosArg date lat lng t <? -1) || (1 <? acosArg date lat lng t) = true ->
  setJ date lat lng t = nan /\ riseJ date lat lng t = nan.
Proof.
  intros Hacos Hout.
  assert (Hs : setJ date lat lng t = nan).
  { unfold setJ, acosArg in *.
    destruct (noonParts date lng) as [[[[lw n] m] l] dec].
    unfold getSetJ, hourAngle. rewrite (Hacos _ Hout).
    rewrite approxTransit_nan. apply solarTransitJ_nan. }
  split; [exact Hs|].
  unfold riseJ. rewrite Hs, sub_nan_l, sub_nan_r. reflexivity.
Qed.

(** C6.  No function of the embedding returns an error, and [GetTimes]
    has no branch on the hour angle: when the argument of [math.Acos] for a
    definition is outside [-1, 1], its set and rise times are not a
    number, and the entries under its non-empty names (unless a later
    definition reuses the name) are the instant that not-a-number converts
    to. *)
Theorem GetTimes_acos_domain s date lat lng l1 t l2 :
  acos_domain M ->
  times s = l1 ++ t :: l2 ->
  (acosArg date lat lng t <? -1) || (1 <? acosArg date lat lng t) = true ->
  let result := GetTimes s date lat lng in
  setJ date lat lng t = nan /\ riseJ date lat lng t = nan /\
  (riseName t <> "" ->
     is_Some (result !! riseName t) /\
     (riseName t ∉ flat_map namesOf l2 ->
      result !! riseName t = Some (Time (JulianFromFloat nan)))) /\
  (setName t <> "" ->
     is_Some (result !! setName t) /\
     (setName t ∉ flat_map namesOf l2 ->
      result !! setName t = Some (Time (JulianFromFloat nan)))).
Proof.
  intros Hacos Hl Hout result.
  destruct (setJ_riseJ_nan date lat lng t Hacos Hout) as [Hs Hr].
  assert (Ht : t ∈ times s) by (rewrite Hl; set_solver).
  split; [exact Hs|]. split; [exact Hr|].
  subst result. split; intros Hne.
  - split.
    { apply (GetTimes_emits s date lat lng t); [exact Ht|].
      apply elem_of_namesOf. auto. }
    intros Hlast. rewrite GetTimes_writes, Hl, flat_map_app. simpl.
    rewrite <- (fst_flat_map_writesOf date lat lng) in Hlast.
    unfold writesOf at 2. rewrite Hr, Hs.
    apply String.eqb_neq in Hne. rewrite Hne. simpl.
    destruct (String.eqb_spec (setName t) "") as [Es|Es]; simpl.
    + apply lookup_writeAll_last. exact Hlast.
    + destruct (decide (riseName t = setName t)) as [E|E].
      * rewrite E in *.
        match goal with
        | |- writeAll ?m (?w1 ++ ?a :: ?b :: ?w2) !! _ = _ =>
            replace (w1 ++ a :: b :: w2) with ((w1 ++ [a]) ++ b :: w2)
              by (rewrite <- app_assoc; reflexivity)
        end.
        apply lookup_writeAll_last. exact Hlast.
      * rewrite writeAll_app, !writeAll_cons, lookup_writeAll_notin by exact Hlast.
        simpl. rewrite lookup_insert_ne by congruence. apply lookup_insert_eq.
  - split.
    { apply (GetTimes_emits s date lat lng t); [exact Ht|].
      apply elem_of_namesOf. auto. }
    intros Hlast. rewrite GetTimes_writes, Hl, flat_map_app. simpl.
    rewrite <- (fst_flat_map_writesOf date lat lng) in Hlast.
    unfold writesOf at 2. rewrite Hr, Hs.
    apply String.eqb_neq in Hne. rewrite Hne. simpl.
    destruct (String.eqb (riseName t) ""); simpl.
    + apply lookup_writeAll_last. exact Hlast.
    + match goal with
      | |- writeAll ?m (?w1 ++ ?a :: ?b :: ?w2) !! _ = _ =>
          replace (w1 ++ a :: b :: w2) with ((w1 ++ [a]) ++ b :: w2)
            by (rewrite <- app_assoc; reflexivity)
      end.
      apply lookup_writeAll_last. exact Hlast.
Qed.

End AcosDomain.

(** ** Go's math package meets its documentation *)

Module GoMathFacts.
Import F64 F64Facts GoMath.
Local Open Scope float_scope.

(** Comparisons of an arbitrary float with the constants [-1], [0], [1]. *)
Lemma lt_m1_cases x :
  (x <? -1) = true -> (x =? 0) = false /\ (x <? 0) = true /\ (1 <? - x) = true.
Proof.
  intros H. split; [|split].
  - rewrite FloatAxioms.eqb_spec. rewrite ltb_spec in H.
    destruct (Prim2SF x) as [s | s | | s m e]; try discriminate H;
      try reflexivity; destruct s; try discriminate H; reflexivity.
  - rewrite ltb_spec in *.
    destruct (Prim2SF x) as [s | s | | s m e]; try discriminate H;
      destruct s; try discriminate H; reflexivity.
  - change 1 with (- (-1)). rewrite ltb_opp. exact H.
Qed.

Lemma gt_1_cases x :
  (1 <? x) = true -> (x =? 0) = false /\ (x <? 0) = false.
Proof.
  intros H. split.
  - rewrite FloatAxioms.eqb_spec. rewrite ltb_spec in H.
    destruct (Prim2SF x) as [s | s | | s m e]; try discriminate H;
      try reflexivity; destruct s; try discriminate H; reflexivity.
  - rewrite ltb_spec in *.
    destruct (Prim2SF x) as [s | s | | s m e]; try discriminate H;
      destruct s; try discriminate H; reflexivity.
Qed.

Lemma asin_outside x : (x <? -1) || (1 <? x) = true -> asin x = nan.
Proof.
  intros H. apply orb_true_iff in H as [H|H]; unfold asin.
  - destruct (lt_m1_cases x H) as (-> & -> & ->). reflexivity.
  - destruct (gt_1_cases x H) as (-> & ->). rewrite H. reflexivity.
Qed.

Lemma GoLibm_acos_domain : acos_domain GoLibm.
Proof.
  intros x H. simpl. unfold acos. rewrite (asin_outside x H).
  apply sub_nan_r.
Qed.

Lemma GoLibm_pow_zero : pow_zero GoLibm.
Proof.
  intros x. simpl. unfold pow.
  replace (0 =? 0) with true by reflexivity. reflexivity.
Qed.

End GoMathFacts.

(** ** Sky positions *)

Section Positions.
Context {M : Libm}.
Import F64 Const.
Local Open Scope float_scope.

Lemma azimuth_range H phi dec :
  atan2_range M ->
  azimuth H phi dec = nan \/
  (- Pi <=? azimuth H phi dec) && (azimuth H phi dec <=? Pi) = true.
Proof. intros Hr. apply Hr. Qed.

Lemma altitude_range H phi dec :
  asin_range M ->
  altitude H phi dec = nan \/
  (- GoMath.halfPi <=? altitude H phi dec)
    && (altitude H phi dec <=? GoMath.halfPi) = true.
Proof. intros Hr. apply Hr. Qed.

(** C5, amended.  Given that [math.Atan2] returns an angle in [-π, π] or
    not-a-number, and [math.Asin] one in [-π/2, π/2] or not-a-number: the
    azimuth of the sun and of the moon is in [-π, π] or not a number; the
    altitude of the sun, and the altitude of the moon before refraction,
    is in [-π/2, π/2] or not a number; and [GetMoonPosition] returns that
    altitude plus the refraction term. *)
Theorem position_ranges s date lat lng :
  atan2_range M -> asin_range M ->
  let '(azim, alti) := GetPosition s date lat lng in
  let '(mazim, malti, _) := GetMoonPosition date lat lng in
  let h := moonBaseAltitude date lat lng in
  (azim = nan \/ (- Pi <=? azim) && (azim <=? Pi) = true) /\
  (alti = nan \/ (- GoMath.halfPi <=? alti) && (alti <=? GoMath.halfPi) = true) /\
  (mazim = nan \/ (- Pi <=? mazim) && (mazim <=? Pi) = true) /\
  (h = nan \/ (- GoMath.halfPi <=? h) && (h <=? GoMath.halfPi) = true) /\
  malti = h + refraction h.
Proof.
  intros Hatan Hasin.
  unfold GetPosition, GetMoonPosition, moonBaseAltitude, refraction.
  destruct (sunCoords (toDays date)) as [dec ra].
  destruct (moonCoords (toDays date)) as [[mdec mra] mdist].
  repeat split;
    first [apply (azimuth_range _ _ _ Hatan) | apply (altitude_range _ _ _ Hasin)].
Qed.

End Positions.

(** ** The repository's tests, evaluated *)

Section Tests.
Import F64 Const Range.
Local Open Scope float_scope.

Example TestNewJulian1 :
  NewJulian (mkInstant 1080820800 0) = mkJulian 2453097 0.
Proof. vm_compute. reflexivity. Qed.

Example TestNewJulian2 :
  NewJulian testDate = mkJulian 2456868 (25405 * 1000000000).
Proof. vm_compute. reflexivity. Qed.

Example TestSunPosition :
  let '(azim, alti) := GetPosition NewSunCalc testDate testLat testLng in
  testNear azim 2.3820139121247865 = true /\
  testNear alti (-0.4573946150014954) = true.
Proof. vm_compute. split; reflexivity. Qed.

Example TestGetMoonPosition :
  let '(azim, alti, dist) := GetMoonPosition testDate testLat testLng in
  testNear azim 1.8424006017910686 = true /\
  testNear alti (-0.2419311867071057) = true /\
  testNear dist 404133.76960804936 = true.
Proof. vm_compute. repeat split; reflexivity. Qed.

Example TestGetMoonIllumination :
  let '(fraction, phase, angle) := GetMoonIllumination testDate in
  testNear fraction 0.07382281607579783 = true /\
  testNear phase 0.08758701583098588 = true /\
  testNear angle (-1.0922384803528917) = true.
Proof. vm_compute. repeat split; reflexivity. Qed.

(** The fourteen instants of [TestTimes], as Unix seconds and nanoseconds. *)
Example TestTimes :
  GetTimes NewSunCalc testDate testLat testLng =
  list_to_map
    [ ("goldenHour", mkInstant 1406649916 619633138);    (* 16:05:16.619633138Z *)
      ("dawn", mkInstant 1406600824 727511405);          (* 02:27:04.727511405Z *)
      ("nauticalDusk", mkInstant 1406655517 470324039);  (* 17:38:37.470324039Z *)
      ("nightEnd", mkInstant 1406596846 217970550);      (* 01:20:46.21797055Z *)
      ("night", mkInstant 1406657561 606369912);         (* 18:12:41.606369912Z *)
      ("solarNoon", mkInstant 1406627203 912170231);     (* 09:46:43.912170231Z *)
      ("dusk", mkInstant 1406653583 96829056);           (* 17:06:23.096829056Z *)
      ("sunsetStart", mkInstant 1406651814 901068806);   (* 16:36:54.901068806Z *)
      ("nauticalDawn", mkInstant 1406598890 354016423);  (* 01:54:50.354016423Z *)
      ("sunset", mkInstant 1406651977 948705852);        (* 16:39:37.948705852Z *)
      ("sunriseEnd", mkInstant 1406602592 923271656);    (* 02:56:32.923271656Z *)
      ("goldenHourEnd", mkInstant 1406604491 204707324); (* 03:28:11.204707324Z *)
      ("nadir", mkInstant 1406584003 912170231);         (* 07-28 21:46:43.912170231Z *)
      ("sunrise", mkInstant 1406602429 875634610) ].     (* 02:53:49.87563461Z *)
Proof. apply map_eq. intros k. vm_compute. reflexivity. Qed.

End Tests.

(** ** The claims at concrete inputs *)

Section Concrete.
Import F64 Const Range.
Local Open Scope float_scope.

Lemma GetTimes_entries_witness :
  GetTimes NewSunCalc testDate testLat testLng !! "sunrise" =
  Some (Time (JulianFromFloat
                (riseJ testDate testLat testLng (mkSunTime (-0.833) "sunrise" "sunset")))).
Proof.
  pose proof (GetTimes_entries (M := GoLibm) NewSunCalc testDate testLat testLng)
    as H.
  cbv zeta in H. destruct H as (_ & _ & _ & H).
  refine (proj1 (H _ (mkSunTime (-0.833) "sunrise" "sunset") _) _).
  - apply (bool_decide_unpack _). vm_compute. reflexivity.
  - apply list_elem_of_here.
  - discriminate.
Defined.

(** C7, as stated, fails: a definition named [solarNoon] replaces the
    transit entry.  With [AddTime(-0.833, "solarNoon", "")] after the
    defaults, the entry under [solarNoon] is the sunrise of the test
    (02:53:49.87563461Z), not the transit (09:46:43.912170231Z). *)
Lemma GetTimes_solarNoon_replaced :
  let s := AddTime NewSunCalc (-0.833) "solarNoon" "" in
  GetTimes s testDate testLat testLng !! "solarNoon"
    = Some (mkInstant 1406602429 875634610) /\
  Time (JulianFromFloat (noonJ testDate testLng))
    = mkInstant 1406627203 912170231.
Proof. split; vm_compute; reflexivity. Qed.

(** At latitude 80 the test's sun never reaches -0.833 degrees. *)
Lemma GetTimes_acos_domain_witness :
  let t := mkSunTime (-0.833) "sunrise" "sunset" in
  GetTimes (AddTime (mkSunCalc []) (-0.833) "sunrise" "sunset")
           testDate 80 testLng !! "sunrise"
  = Some (Time (JulianFromFloat nan)).
Proof.
  pose proof (GetTimes_acos_domain (M := GoLibm)
                (AddTime (mkSunCalc []) (-0.833) "sunrise" "sunset")
                testDate 80 testLng [] (mkSunTime (-0.833) "sunrise" "sunset") []
                GoMathFacts.GoLibm_acos_domain eq_refl) as H.
  cbv zeta in H.
  refine (proj2 (proj1 (proj2 (proj2 (H _))) _) _).
  - vm_compute. reflexivity.
  - discriminate.
  - simpl. apply not_elem_of_nil.
Defined.

(** C2, as stated, fails.  On 2000-01-04 at 11:59:59 UTC the mean anomaly
    is 6.2917 (2π is 6.2832); twelve hours after the test instant, at the
    test longitude, the sidereal time is 7.8279. *)
Lemma angles_exceed_2pi :
  solarMeanAnomaly (toDays (mkInstant 946987199 0)) = 6.2916656775789184 /\
  in_0_2pi (solarMeanAnomaly (toDays (mkInstant 946987199 0))) = false /\
  siderealTime (toDays (mkInstant 1406703805 0)) (rad * - testLng)
    = 7.8278659409698745 /\
  in_0_2pi (siderealTime (toDays (mkInstant 1406703805 0)) (rad * - testLng))
    = false.
Proof. repeat split; vm_compute; reflexivity. Qed.

(** C3 fails on the code: [JulianFromFloat] keeps the sign of the fraction.
    [GetTimes] itself passes it a negative number of days for a date
    before 2000 (here 1999-12-30 04:48 UTC at longitude 0). *)
Lemma JulianFromFloat_negative :
  JulianFromFloat (-0.5) = mkJulian 0 (-43200000000000) /\
  timeOfDay_ok (JulianFromFloat (-0.5)) = false /\
  transitDate (mkInstant 946529280 0) 0 = mkJulian (-2) (-86322239999999).
Proof. repeat split; vm_compute; reflexivity. Qed.

(** C4 fails on the code: [round] sends every negative number that is not
    an integer to the integer below it.  On 1999-12-30 at 04:48 UTC and
    longitude 0 the cycle argument is -2.3009 and the cycle is -3. *)
Lemma julianCycle_rounds_down :
  let d := toDays (mkInstant 946529280 0) in
  d = mkJulian (-3) 60480000000000 /\
  cycleArg d (rad * - 0) = -2.3009 /\
  julianCycle d (rad * - 0) = -3 /\
  round (-2.3009) 0.5 0 = -3 /\ round (-2.5) 0.5 0 = -3 /\
  round 2.3009 0.5 0 = 2 /\ round 2.5 0.5 0 = 3.
Proof. repeat split; vm_compute; reflexivity. Qed.

(** C5, as stated, fails.  With the sun at the zenith the argument of
    [math.Asin] rounds to 1.0000000000000002 and the altitude is not a
    number; and the refraction term of [GetMoonPosition] has poles below
    -5.1 degrees: at the test location, 2014-07-30 05:10:36.73 UTC, the
    moon's altitude comes out as 137.8 radians. *)
Lemma altitude_out_of_range :
  GetPosition NewSunCalc (mkInstant 1423284647 817077201)
              (-15.489173535678736) 111.0050885421291
    = (-1.457956958879044, nan) /\
  altitude_ok nan = false /\
  GetMoonPosition (mkInstant 1406697036 730000000) testLat testLng
    = (-1.7463498959740913, 137.83714117930336, 403236.7139625625) /\
  altitude_ok 137.83714117930336 = false.
Proof. repeat split; vm_compute; reflexivity. Qed.

Lemma CheckedLibm_atan2_range : atan2_range CheckedLibm.
Proof.
  intros y x. simpl. unfold checkedAtan2.
  destruct ((- Pi <=? GoMath.atan2 y x) && (GoMath.atan2 y x <=? Pi)) eqn:E;
    [right; exact E | left; reflexivity].
Qed.

Lemma CheckedLibm_asin_range : asin_range CheckedLibm.
Proof.
  intros x. simpl. unfold checkedAsin.
  destruct ((- GoMath.halfPi <=? GoMath.asin x)
            && (GoMath.asin x <=? GoMath.halfPi)) eqn:E;
    [right; exact E | left; reflexivity].
Qed.

(** At the test instant and place the checks are passed and the values are
    those of the tests. *)
Lemma position_ranges_witness :
  GetPosition (M := CheckedLibm) NewSunCalc testDate testLat testLng
    = (2.3820139121247865, -0.45739461500149542) /\
  (let '(azim, alti) :=
     GetPosition (M := CheckedLibm) NewSunCalc testDate testLat testLng in
   let '(mazim, malti, _) :=
     GetMoonPosition (M := CheckedLibm) testDate testLat testLng in
   let h := moonBaseAltitude (M := CheckedLibm) testDate testLat testLng in
   (azim = nan \/ (- Pi <=? azim) && (azim <=? Pi) = true) /\
   (alti = nan \/ (- GoMath.halfPi <=? alti) && (alti <=? GoMath.halfPi) = true) /\
   (mazim = nan \/ (- Pi <=? mazim) && (mazim <=? Pi) = true) /\
   (h = nan \/ (- GoMath.halfPi <=? h) && (h <=? GoMath.halfPi) = true) /\
   malti = h + refraction (M := CheckedLibm) h).
Proof.
  split; [vm_compute; reflexivity|].
  exact (position_ranges (M := CheckedLibm) NewSunCalc testDate testLat testLng
           CheckedLibm_atan2_range CheckedLibm_asin_range).
Defined.

(** C2, amended.  The whole days enter through a remainder strictly
    between -360e9 and 360e9 nano-degrees; the returned angle is the
    unnormalised one when that is not negative, and 2π more when it is;
    nothing is subtracted on the upper side. *)
Theorem angle_normalisation d lw :
  (-360000000000 < maDegrees d < 360000000000)%Z /\
  (-360000000000 < stDegrees d < 360000000000)%Z /\
  solarMeanAnomaly d = (if maRaw d <? 0 then maRaw d + twoPi else maRaw d) /\
  siderealTime d lw = (if stRaw d lw <? 0 then stRaw d lw + twoPi else stRaw d lw).
Proof.
  repeat split; try reflexivity;
    unfold maDegrees, stDegrees, Int64.rem;
    match goal with
    | |- context [Z.rem ?a ?b] =>
        pose proof (Z.rem_bound_abs a b ltac:(discriminate));
        pose proof (Z.rem_bound_pos_pos a b);
        pose proof (Z.rem_bound_neg_pos a b)
    end; lia.
Qed.

(** C8 at an instant where the limb angle is exactly zero: the phase is
    0.987, just before new moon on the waning side, where the [-1] branch
    would give 0.013. *)
Lemma GetMoonIllumination_phase_witness :
  limbAngle newMoonDate = 0%float /\
  (GetMoonIllumination newMoonDate).2 = 0%float /\
  (GetMoonIllumination newMoonDate).1.2
  = (0.5 + 0.5 * moonInc newMoonDate * 1 / F64.Pi)%float /\
  (GetMoonIllumination newMoonDate).1.2 = 0.9871835149988928%float.
Proof.
  assert (Ha : limbAngle (M := GoLibm) newMoonDate = 0%float)
    by (vm_compute; reflexivity).
  pose proof (GetMoonIllumination_phase (M := GoLibm) newMoonDate) as H.
  destruct (GetMoonIllumination (M := GoLibm) newMoonDate) as [[f p] a] eqn:E.
  destruct H as (Hang & _ & _ & _ & Hzero).
  cbn [fst snd]. split; [exact Ha|]. split; [rewrite Hang; exact Ha|].
  split; [apply Hzero; left; exact Ha|].
  apply (f_equal (fun r => r.1.2)) in E. cbn [fst snd] in E. rewrite <- E.
  vm_compute. reflexivity.
Defined.

End Concrete.

(** ** Julian dates and instants *)

Section JulianFacts.
Import Int64 Int64Facts Int64Arith.

Ltac in64 := unfold in_range, min_int, max_int in *; simpl in *; lia.

(** X1.  For a positive divisor [integerDivide] is floor division: the
    remainder is never negative, also when the dividend is. *)
Theorem integerDivide_spec a b :
  in_range a -> 0 < b <= max_int ->
  let '(q, r) := integerDivide a b in
  a = q * b + r /\ 0 <= r < b /\ q = a / b /\ r = a mod b.
Proof.
  intros Ha Hb. unfold integerDivide, quo, rem, sub, add.
  pose proof (Z.quot_rem' a b) as Hqr.
  assert (Hsign : (0 <= a /\ 0 <= a ÷ b /\ 0 <= Z.rem a b < b) \/
                  (a < 0 /\ a ÷ b <= 0 /\ - b < Z.rem a b <= 0)).
  { destruct (Z_le_gt_dec 0 a) as [H0|H0]; [left | right].
    - pose proof (Z.quot_pos a b H0 ltac:(lia)).
      pose proof (Z.rem_bound_pos a b H0 ltac:(lia)). lia.
    - pose proof (Z.rem_bound_pos_neg a b ltac:(lia) ltac:(lia)).
      pose proof (Z.quot_pos (- a) b ltac:(lia) ltac:(lia)) as Hp.
      rewrite Z.quot_opp_l in Hp by lia. lia. }
  revert Hqr Hsign. generalize (a ÷ b) (Z.rem a b). intros q r Hqr Hsign.
  assert (Hq : in_range q).
  { unfold in_range, min_int, max_int in *. simpl in *.
    destruct Hsign as [(? & ? & ?)|(? & ? & ?)]; nia. }
  rewrite (wrap_small _ Hq).
  destruct (r <? 0) eqn:E; [apply Z.ltb_lt in E | apply Z.ltb_ge in E].
  - destruct Hsign as [(? & ? & ?)|(Ha0 & Hq0 & Hr)]; [lia|].
    assert (Hq' : in_range (q - 1)).
    { unfold in_range, min_int, max_int in *. simpl in *. nia. }
    rewrite (wrap_small _ Hq'), (wrap_small (r + b)) by in64.
    assert (Hd : q - 1 = a / b)
      by (apply (Z.div_unique_pos a b _ (r + b)); lia).
    pose proof (Z.div_mod a b ltac:(lia)).
    repeat split; nia.
  - destruct Hsign as [(? & ? & ?)|(Ha0 & Hq0 & Hr)].
    + assert (Hd : q = a / b) by (apply (Z.div_unique_pos a b _ r); lia).
      pose proof (Z.div_mod a b ltac:(lia)).
      repeat split; nia.
    + assert (r = 0) by lia. subst r.
      assert (Hd : q = a / b) by (apply (Z.div_unique_pos a b _ 0); lia).
      pose proof (Z.div_mod a b ltac:(lia)).
      repeat split; nia.
Qed.

Lemma integerDivide_spec_witness :
  integerDivide (-1) 86400 = (-1, 86399).
Proof.
  pose proof (integerDivide_spec (-1) 86400) as H.
  destruct (integerDivide (-1) 86400) as [q r].
  destruct H as (_ & _ & -> & ->); [in64 | unfold max_int; lia |].
  reflexivity.
Defined.

(** X2.  [removeHalfDay] moves a date with its time inside the day back by
    exactly twelve hours and keeps the time inside the day. *)
Theorem removeHalfDay_shift j :
  Julian_ok j -> min_int < julianDayNumber j ->
  julianNanos (removeHalfDay j) = julianNanos j - 43200000000000 /\
  0 <= time (removeHalfDay j) < 86400000000000.
Proof.
  intros [Hd Ht] Hmin. unfold removeHalfDay, julianNanos, halfDayNano, sub, add.
  change (1000000000 * 60 * 60 * 12) with 43200000000000.
  destruct (time j <? 43200000000000) eqn:E;
    [apply Z.ltb_lt in E | apply Z.ltb_ge in E]; simpl;
    rewrite !wrap_small by in64; lia.
Qed.

Lemma removeHalfDay_shift_witness :
  julianNanos (removeHalfDay (mkJulian 2456869 3805000000000))
  = julianNanos (mkJulian 2456869 3805000000000) - 43200000000000 /\
  0 <= time (removeHalfDay (mkJulian 2456869 3805000000000)) < 86400000000000.
Proof.
  apply (removeHalfDay_shift (mkJulian 2456869 3805000000000)).
  - split; [in64 | simpl; lia].
  - unfold min_int. simpl. lia.
Defined.

(** The day number and the time of day of [NewJulian], counted in
    nanoseconds. *)
Lemma NewJulian_count t :
  Instant_ok t ->
  in_range (julianDayNumber (NewJulian t)) /\
  0 <= time (NewJulian t) < 86400000000000 /\
  julianDayNumber (NewJulian t) * 86400000000000 + time (NewJulian t)
  = unix t * 1000000000 + nanosecond t + 210866760000000000000.
Proof.
  intros Hok. pose proof Hok as [Hs Hn].
  rewrite (NewJulian_eq t Hok). cbv zeta.
  pose proof (Z.mod_pos_bound (unix t) 86400 ltac:(lia)) as Hm.
  pose proof (Z.div_mod (unix t) 86400 ltac:(lia)) as Hdm.
  assert (Hd : - 2 ^ 63 - 86400 <= unix t / 86400 * 86400 <= 2 ^ 63) by in64.
  destruct (unix t mod 86400 * 1000000000 + nanosecond t <? 43200000000000) eqn:E;
    [apply Z.ltb_lt in E | apply Z.ltb_ge in E]; simpl;
    (split; [in64 | split; lia]).
Qed.

(** X3.  The Julian date of an instant has its time inside the day, and it
    counts the same nanoseconds as the instant, from noon of Julian day 0
    instead of the Unix epoch. *)
Theorem NewJulian_nanos t :
  Instant_ok t ->
  Julian_ok (NewJulian t) /\
  julianNanos (NewJulian t) = unixNanos t + epochNanos.
Proof.
  intros Hok. destruct (NewJulian_count t Hok) as (Hd & Ht & He).
  unfold Julian_ok, julianNanos, unixNanos, epochNanos.
  split; [split; assumption|].
  rewrite He. reflexivity.
Qed.

Lemma NewJulian_nanos_witness :
  Julian_ok (NewJulian testDate) /\
  julianNanos (NewJulian testDate) = unixNanos testDate + epochNanos.
Proof.
  apply (NewJulian_nanos testDate).
  split; [in64 | simpl; lia].
Defined.

(** What [Time] returns, by floor division of the time of day. *)
Lemma Time_floor n t :
  in_range n -> in_range t ->
  Time (mkJulian n t) =
  mkInstant (wrap ((n - 2440588) * 86400 + 43200 + t / 1000000000))
            (t mod 1000000000).
Proof.
  intros Hn Ht. unfold Time, time_Unix, j1970, daySec, halfDaySec.
  simpl julianDayNumber. simpl time.
  change (60 * 60 * 24) with 86400. change (60 * 60 * 12) with 43200.
  set (base := add (mul (sub n 2440588) 86400) 43200).
  assert (Hbase : (base mod modulus = ((n - 2440588) * 86400 + 43200) mod modulus)).
  { unfold base, add, mul, sub.
    rewrite wrap_mul_l, wrap_add_l. apply wrap_eqm. }
  assert (Hsec : forall k, wrap (base + k)
                           = wrap ((n - 2440588) * 86400 + 43200 + k)).
  { intros k. apply wrap_unique; [apply wrap_in_range|].
    rewrite wrap_eqm, Zplus_mod, <- Hbase, <- Zplus_mod. reflexivity. }
  pose proof (Z.mod_pos_bound t 1000000000 ltac:(lia)) as Hm.
  pose proof (Z.div_mod t 1000000000 ltac:(lia)) as Hdm.
  destruct ((t <? 0) || (1000000000 <=? t)) eqn:E.
  - unfold quo, mul, sub, add.
    assert (Hq : in_range (t ÷ 1000000000)).
    { unfold in_range, min_int, max_int in *. simpl in *.
      Z.to_euclidean_division_equations. lia. }
    rewrite (wrap_small _ Hq).
    assert (Hqm : in_range (t ÷ 1000000000 * 1000000000)).
    { unfold in_range, min_int, max_int in *. simpl in *.
      Z.to_euclidean_division_equations. lia. }
    rewrite (wrap_small _ Hqm).
    assert (Hr : t - t ÷ 1000000000 * 1000000000 = Z.rem t 1000000000).
    { pose proof (Z.quot_rem' t 1000000000). lia. }
    rewrite Hr.
    assert (Hrr : in_range (Z.rem t 1000000000)).
    { unfold in_range, min_int, max_int in *. simpl in *.
      Z.to_euclidean_division_equations. lia. }
    rewrite (wrap_small _ Hrr).
    destruct (Z.rem t 1000000000 <? 0) eqn:E2;
      [apply Z.ltb_lt in E2 | apply Z.ltb_ge in E2].
    + rewrite wrap_sub_l.
      replace (base + t ÷ 1000000000 - 1) with (base + (t ÷ 1000000000 - 1)) by lia.
      rewrite Hsec. f_equal.
      * f_equal. Z.to_euclidean_division_equations. lia.
      * rewrite wrap_small by in64. Z.to_euclidean_division_equations. lia.
    + rewrite Hsec. f_equal.
      * f_equal. Z.to_euclidean_division_equations. lia.
      * Z.to_euclidean_division_equations. lia.
  - apply orb_false_iff in E as [E1 E2].
    apply Z.ltb_ge in E1. apply Z.leb_gt in E2.
    rewrite Z.div_small, Z.mod_small by lia. rewrite Z.add_0_r.
    f_equal. unfold base, add, mul, sub.
    rewrite wrap_mul_l, wrap_add_l. reflexivity.
Qed.

(** X4.  [Time] returns a normalised instant for every Julian date, also one
    whose time is negative or a day or more: seconds in the [int64] range,
    nanoseconds in [0, 10^9). *)
Theorem Time_normalised n t :
  in_range n -> in_range t -> Instant_ok (Time (mkJulian n t)).
Proof.
  intros Hn Ht. rewrite (Time_floor n t Hn Ht). split; simpl.
  - apply wrap_in_range.
  - apply Z.mod_pos_bound. lia.
Qed.

Lemma Time_normalised_witness :
  Instant_ok (Time (mkJulian 0 (-43200000000000))).
Proof.
  apply (Time_normalised 0 (-43200000000000)); in64.
Defined.

(** X5.  A whole day in the time of day is a day: [Time] takes [(n, t +
    86400e9)] and [(n + 1, t)] to the same instant.  (The date
    [JulianFromFloat(-0.5)] builds, [(0, -43200e9)], is the instant of
    [(-1, 43200e9)].) *)
Theorem Time_day_carry n t :
  in_range n -> in_range (n + 1) ->
  in_range t -> in_range (t + 86400000000000) ->
  Time (mkJulian n (t + 86400000000000)) = Time (mkJulian (n + 1) t).
Proof.
  intros Hn Hn1 Ht Ht1.
  rewrite (Time_floor n _ Hn Ht1), (Time_floor (n + 1) t Hn1 Ht).
  f_equal.
  - f_equal. Z.to_euclidean_division_equations. lia.
  - Z.to_euclidean_division_equations. lia.
Qed.

Lemma Time_day_carry_witness :
  Time (mkJulian (-1) (-43200000000000 + 86400000000000))
  = Time (mkJulian (-1 + 1) (-43200000000000)).
Proof.
  apply (Time_day_carry (-1) (-43200000000000)); in64.
Defined.

(** X6.  [NewJulian] undoes [Time] on every Julian date with its time inside
    the day, as long as the instant fits [int64] seconds. *)
Theorem NewJulian_Time j :
  Julian_ok j -> -100000000000000 <= julianDayNumber j <= 100000000000000 ->
  NewJulian (Time j) = j.
Proof.
  intros [Hd Ht] Hb. destruct j as [n t]. simpl in *.
  assert (Ht' : in_range t) by in64.
  pose proof (Time_floor n t Hd Ht') as HT.
  assert (Hok : Instant_ok (Time (mkJulian n t))).
  { rewrite HT. split; simpl; [apply wrap_in_range | apply Z.mod_pos_bound; lia]. }
  rewrite (NewJulian_eq _ Hok). cbv zeta. rewrite HT. simpl unix. simpl nanosecond.
  set (q := t / 1000000000). set (r := t mod 1000000000).
  pose proof (Z.mod_pos_bound t 1000000000 ltac:(lia)) as Hr. fold r in Hr.
  pose proof (Z.div_mod t 1000000000 ltac:(lia)) as Hdm. fold q r in Hdm.
  assert (Hq : 0 <= q < 86400) by lia.
  rewrite (wrap_small ((n - 2440588) * 86400 + 43200 + q)) by in64.
  set (u := (n - 2440588) * 86400 + 43200 + q).
  destruct (Z_lt_ge_dec q 43200) as [Hlt|Hge].
  - assert (Hdiv : u / 86400 = n - 2440588)
      by (symmetry; apply (Z.div_unique_pos u 86400 _ (43200 + q)); unfold u; lia).
    assert (Hmod : u mod 86400 = 43200 + q)
      by (pose proof (Z.div_mod u 86400 ltac:(lia)); unfold u in *; lia).
    rewrite Hdiv, Hmod.
    replace ((43200 + q) * 1000000000 + r <? 43200000000000) with false
      by (symmetry; apply Z.ltb_ge; lia).
    f_equal; lia.
  - assert (Hdiv : u / 86400 = n - 2440588 + 1)
      by (symmetry; apply (Z.div_unique_pos u 86400 _ (q - 43200)); unfold u; lia).
    assert (Hmod : u mod 86400 = q - 43200)
      by (pose proof (Z.div_mod u 86400 ltac:(lia)); unfold u in *; lia).
    rewrite Hdiv, Hmod.
    replace ((q - 43200) * 1000000000 + r <? 43200000000000) with true
      by (symmetry; apply Z.ltb_lt; lia).
    f_equal; lia.
Qed.

Lemma NewJulian_Time_witness :
  NewJulian (Time (mkJulian 2456868 25405000000000))
  = mkJulian 2456868 25405000000000.
Proof.
  apply (NewJulian_Time (mkJulian 2456868 25405000000000)).
  - split; [in64 | simpl; lia].
  - simpl. lia.
Defined.

(** X7.  [NewJulian] keeps the order of instants: an earlier instant has the
    earlier day number, or the same day number and the earlier time. *)
Theorem NewJulian_monotone t1 t2 :
  Instant_ok t1 -> Instant_ok t2 ->
  unixNanos t1 < unixNanos t2 ->
  julianDayNumber (NewJulian t1) < julianDayNumber (NewJulian t2) \/
  (julianDayNumber (NewJulian t1) = julianDayNumber (NewJulian t2) /\
   time (NewJulian t1) < time (NewJulian t2)).
Proof.
  intros H1 H2 Hlt.
  destruct (NewJulian_count t1 H1) as (_ & Hr1 & He1).
  destruct (NewJulian_count t2 H2) as (_ & Hr2 & He2).
  unfold unixNanos in Hlt. lia.
Qed.

Lemma NewJulian_monotone_witness :
  julianDayNumber (NewJulian (mkInstant 1080820800 0))
    < julianDayNumber (NewJulian testDate) \/
  (julianDayNumber (NewJulian (mkInstant 1080820800 0))
     = julianDayNumber (NewJulian testDate) /\
   time (NewJulian (mkInstant 1080820800 0)) < time (NewJulian testDate)).
Proof.
  apply (NewJulian_monotone (mkInstant 1080820800 0) testDate).
  - split; [in64 | simpl; lia].
  - split; [in64 | simpl; lia].
  - unfold unixNanos. simpl. lia.
Defined.

(** X8.  [toDays] counts from J2000: the date it returns holds the
    nanoseconds elapsed since 2000-01-01 12:00:00 UTC (Unix second
    946728000), with the time inside the day. *)
Theorem toDays_since_J2000 t :
  Instant_ok t ->
  julianNanos (toDays t) = unixNanos t - 946728000 * 1000000000 /\
  0 <= time (toDays t) < 86400000000000.
Proof.
  intros Hok. destruct (NewJulian_count t Hok) as (Hd & Ht & He).
  pose proof Hok as [Hs Hn].
  unfold toDays, julianNanos, j2000 in *. simpl.
  assert (Hr : -106751991167301 + 2440587 <= julianDayNumber (NewJulian t)
               <= 106751991167301 + 2440588).
  { rewrite (NewJulian_eq t Hok). cbv zeta.
    pose proof (Z.mod_pos_bound (unix t) 86400 ltac:(lia)).
    pose proof (Z.div_mod (unix t) 86400 ltac:(lia)).
    destruct (_ <? _); simpl; in64. }
  unfold sub. rewrite wrap_small by in64.
  unfold unixNanos. lia.
Qed.

Lemma toDays_since_J2000_witness :
  julianNanos (toDays testDate) = unixNanos testDate - 946728000 * 1000000000 /\
  0 <= time (toDays testDate) < 86400000000000.
Proof.
  apply (toDays_since_J2000 testDate).
  split; [in64 | simpl; lia].
Defined.

End JulianFacts.

(** ** Configuring the calculator *)

Section CalculatorFacts.
Context {M : Libm}.
Implicit Types (m : gmap string Instant) (w : list (string * Instant)).

Lemma writeAll_snoc m w k v : writeAll m (w ++ [(k, v)]) = <[k := v]> (writeAll m w).
Proof. rewrite writeAll_app. reflexivity. Qed.

Lemma size_writeAll m w : (size (writeAll m w) <= size m + length w)%nat.
Proof.
  revert m. induction w as [|[k v] w IH]; intros m.
  - simpl. unfold writeAll. simpl. lia.
  - rewrite writeAll_cons. specialize (IH (<[k:=v]> m)).
    rewrite map_size_insert in IH. simpl length.
    destruct (m !! k); simpl in IH; lia.
Qed.

Lemma length_writesOf date lat lng l :
  (length (flat_map (writesOf date lat lng) l) <= 2 * length l)%nat.
Proof.
  induction l as [|t l IH]; simpl; [lia|].
  rewrite length_app. unfold writesOf at 1.
  destruct (String.eqb (riseName t) ""), (String.eqb (setName t) ""); simpl; lia.
Qed.

(** X9.  The result of [GetTimes] has at least the two entries [solarNoon]
    and [nadir] and at most two more per configured definition; for a
    calculator without definitions it has exactly those two. *)
Theorem GetTimes_size s date lat lng :
  (2 <= size (GetTimes s date lat lng) <= 2 + 2 * length (times s))%nat /\
  (times s = [] -> dom (GetTimes s date lat lng) = {["solarNoon"; "nadir"]}).
Proof.
  split; [split|].
  - rewrite <- size_dom, GetTimes_dom.
    transitivity (size ({["solarNoon"; "nadir"]} : gset string)).
    + rewrite size_union, !size_singleton by set_solver. lia.
    + apply subseteq_size. set_solver.
  - rewrite GetTimes_writes.
    pose proof (size_writeAll ∅
      (("solarNoon", Time (JulianFromFloat (noonJ date lng)))
       :: ("nadir", Time (JulianFromFloat (noonJ date lng - 0.5)%float))
       :: flat_map (writesOf date lat lng) (times s))) as H.
    rewrite map_size_empty in H. simpl length in H.
    pose proof (length_writesOf date lat lng (times s)). lia.
  - intros E. rewrite GetTimes_dom, E. simpl. set_solver.
Qed.

(** X10.  With the definitions of [NewSunCalc], [GetTimes] returns exactly
    the fourteen names of the test table, for every instant and place. *)
Theorem GetTimes_default_names date lat lng :
  dom (GetTimes NewSunCalc date lat lng)
  = list_to_set
      ["solarNoon"; "nadir"; "sunrise"; "sunset"; "sunriseEnd"; "sunsetStart";
       "dawn"; "dusk"; "nauticalDawn"; "nauticalDusk"; "nightEnd"; "night";
       "goldenHourEnd"; "goldenHour"] /\
  size (GetTimes NewSunCalc date lat lng) = 14%nat.
Proof.
  assert (Hd : dom (GetTimes NewSunCalc date lat lng)
    = list_to_set
      ["solarNoon"; "nadir"; "sunrise"; "sunset"; "sunriseEnd"; "sunsetStart";
       "dawn"; "dusk"; "nauticalDawn"; "nauticalDusk"; "nightEnd"; "night";
       "goldenHourEnd"; "goldenHour"]).
  { rewrite GetTimes_dom. simpl. set_solver. }
  split; [exact Hd|].
  rewrite <- size_dom, Hd.
  rewrite size_list_to_set; [reflexivity|].
  apply (bool_decide_unpack _). vm_compute. reflexivity.
Qed.

Lemma GetTimes_snoc l t date lat lng :
  GetTimes (mkSunCalc (l ++ [t])) date lat lng
  = writeAll (GetTimes (mkSunCalc l) date lat lng) (writesOf date lat lng t).
Proof.
  rewrite !GetTimes_writes. simpl times.
  rewrite flat_map_app. simpl flat_map. rewrite app_nil_r.
  rewrite <- writeAll_app. reflexivity.
Qed.

Lemma GetTimes_last_definition l t date lat lng :
  let result := GetTimes (mkSunCalc (l ++ [t])) date lat lng in
  (setName t <> "" ->
     result !! setName t = Some (Time (JulianFromFloat (setJ date lat lng t)))) /\
  (riseName t <> "" -> riseName t <> setName t ->
     result !! riseName t = Some (Time (JulianFromFloat (riseJ date lat lng t)))).
Proof.
  intros result. subst result. rewrite GetTimes_snoc.
  generalize (GetTimes (mkSunCalc l) date lat lng). intros m0.
  unfold writesOf. split.
  - intros Hs. apply String.eqb_neq in Hs. rewrite Hs.
    rewrite writeAll_snoc. apply lookup_insert_eq.
  - intros Hr Hne. apply String.eqb_neq in Hr. rewrite Hr.
    destruct (String.eqb (setName t) "").
    + rewrite app_nil_r. unfold writeAll. simpl. apply lookup_insert_eq.
    + unfold writeAll. simpl. rewrite lookup_insert_ne by congruence.
      apply lookup_insert_eq.
Qed.

(** X12.  A definition added with [AddTime] takes over the names it uses:
    whatever was configured under them before (the defaults, [solarNoon],
    [nadir]), [GetTimes] afterwards reports the new definition's set time
    under [setName] and its rise time under [riseName]. *)
Theorem AddTime_overrides s a r n date lat lng :
  let t := mkSunTime a r n in
  let result := GetTimes (AddTime s a r n) date lat lng in
  (n <> "" -> result !! n = Some (Time (JulianFromFloat (setJ date lat lng t)))) /\
  (r <> "" -> r <> n ->
     result !! r = Some (Time (JulianFromFloat (riseJ date lat lng t)))).
Proof.
  intros t result.
  exact (GetTimes_last_definition (times s) t date lat lng).
Qed.

(** X13.  A definition that changes nothing: one with both names empty,
    and one that repeats the definition added just before. *)
Theorem AddTime_redundant s a r n date lat lng :
  GetTimes (AddTime s a "" "") date lat lng = GetTimes s date lat lng /\
  GetTimes (AddTime (AddTime s a r n) a r n) date lat lng
  = GetTimes (AddTime s a r n) date lat lng.
Proof.
  unfold AddTime. simpl times. rewrite !GetTimes_snoc. split.
  - destruct s as [l]. reflexivity.
  - generalize (GetTimes (mkSunCalc (times s)) date lat lng). intros m.
    unfold writesOf. simpl riseName. simpl setName.
    generalize (Time (JulianFromFloat (riseJ date lat lng (mkSunTime a r n)))).
    generalize (Time (JulianFromFloat (setJ date lat lng (mkSunTime a r n)))).
    intros vn vr.
    destruct (String.eqb r ""), (String.eqb n ""); unfold writeAll; simpl;
      try reflexivity; try apply insert_insert_eq.
    apply map_eq. intros k.
    destruct (decide (k = n)) as [->|Hn]; [rewrite !lookup_insert_eq; reflexivity|].
    rewrite !(lookup_insert_ne _ n k) by congruence.
    destruct (decide (k = r)) as [->|Hr]; [rewrite !lookup_insert_eq; reflexivity|].
    repeat first [ rewrite (lookup_insert_ne _ n k) by congruence
                 | rewrite (lookup_insert_ne _ r k) by congruence ].
    reflexivity.
Qed.

Lemma writeAll_Permutation w1 w2 :
  w1 ≡ₚ w2 -> NoDup w1.*1 -> forall m, writeAll m w1 = writeAll m w2.
Proof.
  induction 1 as [|[k v] w1 w2 Hp IH|[k1 v1] [k2 v2] w|w1 w2 w3 H12 IH12 H23 IH23];
    intros Hnd m.
  - reflexivity.
  - rewrite !writeAll_cons. apply IH.
    rewrite fmap_cons in Hnd. apply NoDup_cons in Hnd. tauto.
  - rewrite !writeAll_cons. rewrite !fmap_cons in Hnd. simpl in Hnd.
    apply NoDup_cons in Hnd. destruct Hnd as [Hne _].
    rewrite insert_insert_ne; [reflexivity|]. set_solver.
  - rewrite IH12 by exact Hnd. apply IH23. rewrite <- H12. exact Hnd.
Qed.

(** X14.  When the configured non-empty names are pairwise distinct, the
    order of the definitions does not matter: calculators holding the same
    definitions in a different order give the same result. *)
Theorem GetTimes_permutation s1 s2 date lat lng :
  times s1 ≡ₚ times s2 ->
  NoDup (flat_map namesOf (times s1)) ->
  GetTimes s1 date lat lng = GetTimes s2 date lat lng.
Proof.
  intros Hp Hnd. rewrite !GetTimes_writes, !writeAll_cons.
  apply writeAll_Permutation.
  - apply Permutation_flat_map. exact Hp.
  - rewrite fst_flat_map_writesOf. exact Hnd.
Qed.

End CalculatorFacts.

Section CalculatorExamples.

Lemma GetTimes_permutation_witness :
  GetTimes (M := GoLibm)
    (mkSunCalc [mkSunTime (-6) "dawn" "dusk"; mkSunTime 6 "" "goldenHour"])
    testDate testLat testLng
  = GetTimes (M := GoLibm)
      (mkSunCalc [mkSunTime 6 "" "goldenHour"; mkSunTime (-6) "dawn" "dusk"])
      testDate testLat testLng.
Proof.
  refine (GetTimes_permutation (M := GoLibm)
            (mkSunCalc [mkSunTime (-6) "dawn" "dusk"; mkSunTime 6 "" "goldenHour"])
            (mkSunCalc [mkSunTime 6 "" "goldenHour"; mkSunTime (-6) "dawn" "dusk"])
            testDate testLat testLng _ _).
  - apply perm_swap.
  - apply (bool_decide_unpack _). vm_compute. reflexivity.
Defined.

Lemma AddTime_overrides_witness :
  GetTimes (M := GoLibm) (AddTime NewSunCalc (-6) "sunrise" "solarNoon")
    testDate testLat testLng !! "solarNoon"
  = Some (Time (JulianFromFloat
                  (setJ (M := GoLibm) testDate testLat testLng
                     (mkSunTime (-6) "sunrise" "solarNoon")))).
Proof.
  refine (proj1 (AddTime_overrides (M := GoLibm) NewSunCalc (-6)
                   "sunrise" "solarNoon" testDate testLat testLng) _).
  discriminate.
Defined.

End CalculatorExamples.

(** ** Arguments that are not a number *)

Module GoMathNaN.
Import F64 GoMath.

Lemma GoLibm_nan_propagating : nan_propagating GoLibm.
Proof.
  unfold nan_propagating. simpl.
  split; [vm_compute; reflexivity|].
  split; [vm_compute; reflexivity|].
  split; [vm_compute; reflexivity|].
  split; [vm_compute; reflexivity|].
  split.
  - intros y. unfold atan2. reflexivity.
  - intros x. unfold atan2.
    change (is_nan nan) with true. rewrite orb_true_r. reflexivity.
Qed.

End GoMathNaN.

Section NotANumber.
Context {M : Libm}.
Import F64 Const F64Facts.
Local Open Scope float_scope.

Lemma siderealTime_nan d : siderealTime d nan = nan.
Proof. unfold siderealTime. cbv zeta. rewrite sub_nan_r. reflexivity. Qed.

Lemma round_nan : round nan 0.5 0 = nan.
Proof.
  unfold round. cbv zeta. rewrite mul_nan_r.
  replace (Modf nan) with (nan, nan) by (vm_compute; reflexivity).
  replace (0.5 <=? nan) with false by (vm_compute; reflexivity).
  replace (Floor nan) with nan by (vm_compute; reflexivity).
  apply div_nan_l.
Qed.

Lemma julianCycle_nan d : julianCycle d nan = nan.
Proof. unfold julianCycle. rewrite div_nan_l, sub_nan_r. apply round_nan. Qed.

Lemma approxTransit_lw_nan Ht n : approxTransit Ht nan n = nan.
Proof.
  unfold approxTransit. rewrite add_nan_r, div_nan_l, add_nan_r, add_nan_l.
  reflexivity.
Qed.

Lemma lw_nan : rad * - nan = nan.
Proof. replace (- nan) with nan by (vm_compute; reflexivity). apply mul_nan_r. Qed.

Lemma noonJ_nan date : noonJ date nan = nan.
Proof.
  unfold noonJ, noonParts. cbv zeta. rewrite lw_nan, approxTransit_lw_nan.
  apply solarTransitJ_nan.
Qed.

Lemma setJ_nan date lat t : setJ date lat nan t = nan.
Proof.
  unfold setJ, noonParts, getSetJ. cbv zeta.
  rewrite lw_nan, !approxTransit_lw_nan. apply solarTransitJ_nan.
Qed.

Lemma riseJ_nan date lat t : riseJ date lat nan t = nan.
Proof. unfold riseJ. rewrite noonJ_nan. apply sub_nan_l. Qed.

Lemma writesOf_nan date lat t kv :
  kv ∈ writesOf date lat nan t -> kv.2 = nanInstant.
Proof.
  unfold writesOf. rewrite riseJ_nan, setJ_nan. fold nanInstant.
  destruct (String.eqb (riseName t) ""), (String.eqb (setName t) "");
    set_solver.
Qed.

Lemma lookup_writeAll_inv (m : gmap string Instant) w k v :
  writeAll m w !! k = Some v -> m !! k = Some v \/ (k, v) ∈ w.
Proof.
  revert m. induction w as [|[k' v'] w IH]; intros m H.
  - left. exact H.
  - rewrite writeAll_cons in H. destruct (IH _ H) as [H'|H'].
    + destruct (decide (k' = k)) as [->|Hne].
      * rewrite lookup_insert_eq in H'. right. set_solver.
      * rewrite lookup_insert_ne in H' by exact Hne. left. exact H'.
    + right. set_solver.
Qed.

Lemma GetTimes_nan_values s date lat k v :
  GetTimes s date lat nan !! k = Some v -> v = nanInstant.
Proof.
  rewrite GetTimes_writes, noonJ_nan, sub_nan_l. fold nanInstant.
  intros H. apply lookup_writeAll_inv in H.
  destruct H as [H|H]; [rewrite lookup_empty in H; discriminate|].
  apply elem_of_cons in H as [H|H]; [congruence|].
  apply elem_of_cons in H as [H|H]; [congruence|].
  apply list_elem_of_In, in_flat_map in H. destruct H as (t & _ & H).
  apply list_elem_of_In in H. exact (writesOf_nan date lat t (k, v) H).
Qed.

(** X15.  A longitude that is not a number is not rejected: [GetTimes]
    returns the same names as for any other place, every one of them with the
    instant that not-a-number converts to (Unix second -220090132037, some
    seven thousand years back) -- whatever the instant, the latitude and the
    trigonometric functions. *)
Theorem GetTimes_nan_longitude s date lat lng :
  GetTimes s date lat nan = (fun _ => nanInstant) <$> GetTimes s date lat lng /\
  nanInstant = mkInstant (-220090132037) 145224192.
Proof.
  split; [|vm_compute; reflexivity].
  apply map_eq. intros k. rewrite lookup_fmap.
  destruct (GetTimes s date lat nan !! k) as [v|] eqn:E1.
  - rewrite (GetTimes_nan_values _ _ _ _ _ E1).
    assert (Hk : k ∈ dom (GetTimes s date lat lng)).
    { rewrite GetTimes_dom, <- (GetTimes_dom s date lat nan).
      apply elem_of_dom. eauto. }
    apply elem_of_dom in Hk as [v' ->]. reflexivity.
  - assert (Hk : k ∉ dom (GetTimes s date lat lng)).
    { rewrite GetTimes_dom, <- (GetTimes_dom s date lat nan).
      apply not_elem_of_dom. exact E1. }
    apply not_elem_of_dom in Hk. rewrite Hk. reflexivity.
Qed.

End NotANumber.

Section NotANumberLibm.
Context {M : Libm}.
Import F64 Const F64Facts.
Local Open Scope float_scope.

Lemma azimuth_altitude_nan_phi H dec :
  nan_propagating M -> azimuth H nan dec = nan /\ altitude H nan dec = nan.
Proof.
  intros (Hsin & Hcos & Hasin & _ & Hat & _). unfold azimuth, altitude.
  rewrite Hsin, Hcos, !mul_nan_r, sub_nan_r, mul_nan_l, !add_nan_l. auto.
Qed.

Lemma azimuth_altitude_nan_H phi dec :
  nan_propagating M -> azimuth nan phi dec = nan /\ altitude nan phi dec = nan.
Proof.
  intros (Hsin & Hcos & Hasin & _ & _ & Hat). unfold azimuth, altitude.
  rewrite Hsin, Hcos, mul_nan_r, add_nan_r. auto.
Qed.

(** X16.  [GetPosition] does not reject a latitude or a longitude that is
    not a number: with a [math] package that returns NaN for NaN, both the
    azimuth and the altitude are NaN. *)
Theorem GetPosition_nan s date lat lng :
  nan_propagating M ->
  GetPosition s date nan lng = (nan, nan) /\
  GetPosition s date lat nan = (nan, nan).
Proof.
  intros HM. unfold GetPosition. cbv zeta.
  destruct (sunCoords (toDays date)) as [dec ra].
  rewrite mul_nan_r, lw_nan, siderealTime_nan, sub_nan_l. split.
  - destruct (azimuth_altitude_nan_phi (siderealTime (toDays date) (rad * - lng) - ra)
                dec HM) as [-> ->]. reflexivity.
  - destruct (azimuth_altitude_nan_H (rad * lat) dec HM) as [-> ->]. reflexivity.
Qed.

(** X17.  [GetMoonPosition] likewise: with a latitude or a longitude that is
    not a number the azimuth and the altitude are NaN, while the distance is
    the one computed for any other place. *)
Theorem GetMoonPosition_nan date lat lng :
  nan_propagating M ->
  let dist := (GetMoonPosition date lat lng).2 in
  GetMoonPosition date nan lng = (nan, nan, dist) /\
  GetMoonPosition date lat nan = (nan, nan, dist).
Proof.
  intros HM. unfold GetMoonPosition. cbv zeta.
  destruct (moonCoords (toDays date)) as [[dec ra] dist]. simpl snd.
  rewrite mul_nan_r, lw_nan, siderealTime_nan, sub_nan_l. split.
  - destruct (azimuth_altitude_nan_phi (siderealTime (toDays date) (rad * - lng) - ra)
                dec HM) as [-> ->]. rewrite add_nan_l. reflexivity.
  - destruct (azimuth_altitude_nan_H (rad * lat) dec HM) as [-> ->].
    rewrite add_nan_l. reflexivity.
Qed.

Lemma setJ_riseJ_nan_lat date lng t :
  nan_propagating M -> setJ date nan lng t = nan /\ riseJ date nan lng t = nan.
Proof.
  intros (Hsin & Hcos & _ & Hacos & _).
  assert (Hs : setJ date nan lng t = nan).
  { unfold setJ. destruct (noonParts date lng) as [[[[lw n] m] l] dec].
    unfold getSetJ, hourAngle.
    rewrite mul_nan_r, Hsin, mul_nan_l, sub_nan_r, div_nan_l, Hacos.
    rewrite approxTransit_nan. apply solarTransitJ_nan. }
  split; [exact Hs|].
  unfold riseJ. rewrite Hs, sub_nan_l, sub_nan_r. reflexivity.
Qed.

Lemma lookup_writeAll_const (m : gmap string Instant) w k v :
  (forall kv, kv ∈ w -> kv.2 = v) -> k ∈ w.*1 -> writeAll m w !! k = Some v.
Proof.
  revert m. induction w as [|[k' v'] w IH]; intros m Hv Hk.
  - set_solver.
  - rewrite writeAll_cons. destruct (decide (k ∈ w.*1)) as [Hin|Hnot].
    + apply IH; [|exact Hin]. intros kv Hkv. apply Hv. set_solver.
    + rewrite lookup_writeAll_notin by exact Hnot.
      rewrite fmap_cons in Hk. apply elem_of_cons in Hk as [->|Hk]; [|contradiction].
      simpl. rewrite lookup_insert_eq. f_equal.
      apply (Hv (k', v')). set_solver.
Qed.

(** X18.  With a latitude that is not a number [GetTimes] still answers:
    every configured name holds the instant that not-a-number converts to,
    while [solarNoon] and [nadir], which do not depend on the latitude, are
    computed as usual unless a configured name replaces them. *)
Theorem GetTimes_nan_latitude s date lat lng k :
  nan_propagating M ->
  (k ∈ flat_map namesOf (times s) ->
   GetTimes s date nan lng !! k = Some nanInstant) /\
  (k ∉ flat_map namesOf (times s) ->
   GetTimes s date nan lng !! k = GetTimes s date lat lng !! k).
Proof.
  intros HM. rewrite !GetTimes_writes, !writeAll_cons. split; intros Hk.
  - apply lookup_writeAll_const.
    + intros kv Hkv. apply list_elem_of_In, in_flat_map in Hkv.
      destruct Hkv as (t & _ & Hkv). apply list_elem_of_In in Hkv.
      unfold writesOf in Hkv.
      destruct (setJ_riseJ_nan_lat date lng t HM) as [Hs Hr].
      rewrite Hs, Hr in Hkv. fold nanInstant in Hkv.
      destruct (String.eqb (riseName t) ""), (String.eqb (setName t) "");
        set_solver.
    + rewrite fst_flat_map_writesOf. exact Hk.
  - rewrite !lookup_writeAll_notin
      by (rewrite fst_flat_map_writesOf; exact Hk).
    reflexivity.
Qed.

End NotANumberLibm.

Section NotANumberExamples.

Lemma GetPosition_nan_witness :
  GetPosition (M := GoLibm) NewSunCalc testDate nan testLng = (nan, nan) /\
  GetPosition (M := GoLibm) NewSunCalc testDate testLat nan = (nan, nan).
Proof.
  exact (GetPosition_nan (M := GoLibm) NewSunCalc testDate testLat testLng
           GoMathNaN.GoLibm_nan_propagating).
Defined.

Lemma GetMoonPosition_nan_witness :
  GetMoonPosition (M := GoLibm) testDate nan testLng
  = (nan, nan, (GetMoonPosition (M := GoLibm) testDate testLat testLng).2) /\
  GetMoonPosition (M := GoLibm) testDate testLat nan
  = (nan, nan, (GetMoonPosition (M := GoLibm) testDate testLat testLng).2).
Proof.
  exact (GetMoonPosition_nan (M := GoLibm) testDate testLat testLng
           GoMathNaN.GoLibm_nan_propagating).
Defined.

Lemma GetTimes_nan_latitude_witness :
  GetTimes (M := GoLibm) NewSunCalc testDate nan testLng !! "sunrise"
  = Some nanInstant.
Proof.
  refine (proj1 (GetTimes_nan_latitude (M := GoLibm) NewSunCalc testDate testLat
                   testLng "sunrise" GoMathNaN.GoLibm_nan_propagating) _).
  apply list_elem_of_here.
Defined.

End NotANumberExamples.

(** ** The whole degrees of the two angles *)

Section Degrees.
Import Int64 Int64Facts.

Ltac in64 := unfold in_range, min_int, max_int in *; simpl in *; lia.

Lemma rem_turn a :
  -360000000000 < Z.rem a 360000000000 < 360000000000 /\
  (0 <= a -> 0 <= Z.rem a 360000000000).
Proof.
  split.
  - destruct (Z.le_ge_cases 0 a) as [Ha|Ha].
    + pose proof (Z.rem_bound_pos a 360000000000 Ha ltac:(lia)). lia.
    + pose proof (Z.rem_bound_pos_neg a 360000000000 ltac:(lia) ltac:(lia)). lia.
  - intros Ha. pose proof (Z.rem_bound_pos a 360000000000 Ha ltac:(lia)). lia.
Qed.

(** X19.  For day numbers within 25 million days of J2000 (some 68000 years
    either way) the integer arithmetic of [siderealTime] and
    [solarMeanAnomaly] does not overflow: the whole part of each angle is the
    linear formula of the comments, in units of 10^-9 degree, reduced to less
    than a turn, and it is not negative from J2000 on. *)
Theorem degrees_reduced d :
  degrees_exact (julianDayNumber d) ->
  stDegrees d
  = Z.rem (280160000000 + julianDayNumber d * 360985623500) 360000000000 /\
  maDegrees d
  = Z.rem (357529100000 + julianDayNumber d * 985600280) 360000000000 /\
  -360000000000 < stDegrees d < 360000000000 /\
  -360000000000 < maDegrees d < 360000000000 /\
  (0 <= julianDayNumber d -> 0 <= stDegrees d /\ 0 <= maDegrees d).
Proof.
  intros Hd. unfold degrees_exact in Hd.
  assert (Hst : stDegrees d
    = Z.rem (280160000000 + julianDayNumber d * 360985623500) 360000000000).
  { unfold stDegrees, rem, add, mul, Const.stCoef0Nano, Const.stCoef1Nano.
    rewrite (wrap_small (julianDayNumber d * _)) by in64.
    rewrite wrap_small by in64. f_equal. }
  assert (Hma : maDegrees d
    = Z.rem (357529100000 + julianDayNumber d * 985600280) 360000000000).
  { unfold maDegrees, rem, add, mul, Const.maCoef0Nano, Const.maCoef1Nano.
    rewrite (wrap_small (julianDayNumber d * _)) by in64.
    rewrite wrap_small by in64. f_equal. }
  split; [exact Hst|]. split; [exact Hma|]. rewrite Hst, Hma.
  split; [apply rem_turn|]. split; [apply rem_turn|].
  intros H0. split; apply rem_turn; lia.
Qed.

Lemma degrees_reduced_witness :
  stDegrees (toDays testDate)
  = Z.rem (280160000000 + julianDayNumber (toDays testDate) * 360985623500)
      360000000000 /\
  maDegrees (toDays testDate)
  = Z.rem (357529100000 + julianDayNumber (toDays testDate) * 985600280)
      360000000000 /\
  -360000000000 < stDegrees (toDays testDate) < 360000000000 /\
  -360000000000 < maDegrees (toDays testDate) < 360000000000 /\
  (0 <= julianDayNumber (toDays testDate) ->
   0 <= stDegrees (toDays testDate) /\ 0 <= maDegrees (toDays testDate)).
Proof.
  apply (degrees_reduced (toDays testDate)).
  unfold degrees_exact. vm_compute. split; discriminate.
Defined.

End Degrees.

(** ** Calculators that share an array *)

Section SliceFacts.
Variable growslice : nat -> nat -> nat.
Local Open Scope nat_scope.
Implicit Types (h : list (list sunTime)) (s t : slice) (x : sunTime).

Lemma arrayAt_insert h p i x :
  arrayAt (alter (fun a => <[i := x]> a) p h) p = <[i := x]> (arrayAt h p).
Proof.
  unfold arrayAt. rewrite list_lookup_alter_eq.
  destruct (h !! p); reflexivity.
Qed.

Lemma arrayAt_alter_ne h p q (f : list sunTime -> list sunTime) :
  p <> q -> arrayAt (alter f p h) q = arrayAt h q.
Proof. intros Hne. unfold arrayAt. rewrite list_lookup_alter_ne by exact Hne. reflexivity. Qed.

Lemma arrayAt_app_new h a : arrayAt (h ++ [a]) (length h) = a.
Proof. unfold arrayAt. rewrite list_lookup_middle by reflexivity. reflexivity. Qed.

Lemma arrayAt_ge h p : length h <= p -> arrayAt h p = [].
Proof. intros H. unfold arrayAt. rewrite lookup_ge_None_2 by exact H. reflexivity. Qed.

Lemma arrayAt_app_old h a p : p <> length h -> arrayAt (h ++ [a]) p = arrayAt h p.
Proof.
  intros Hne. destruct (decide (p < length h)) as [Hlt|Hge].
  - unfold arrayAt. rewrite lookup_app_l by exact Hlt. reflexivity.
  - rewrite !arrayAt_ge; [reflexivity| lia |rewrite length_app; simpl; lia].
Qed.

Lemma slice_ok_app h a s : slice_ok h s -> slice_ok (h ++ [a]) s.
Proof.
  intros Hok. destruct (decide (ptr s = length h)) as [E|Hne].
  - destruct Hok as [Hl Hc]. rewrite arrayAt_ge in Hl, Hc by lia.
    simpl in *. split; lia.
  - unfold slice_ok. rewrite arrayAt_app_old by exact Hne. exact Hok.
Qed.

Lemma elems_app h a s : slice_ok h s -> elems (h ++ [a]) s = elems h s.
Proof.
  intros Hok. destruct (decide (ptr s = length h)) as [E|Hne].
  - destruct Hok as [Hl Hc]. rewrite arrayAt_ge in Hl by lia. simpl in Hl.
    unfold elems. replace (len s) with 0 by lia. reflexivity.
  - unfold elems. rewrite arrayAt_app_old by exact Hne. reflexivity.
Qed.

Lemma length_elems h s : slice_ok h s -> length (elems h s) = len s.
Proof. intros [Hl _]. unfold elems. rewrite length_take. lia. Qed.

(** What the slice returned by [append] shows. *)
Lemma append_self h s x :
  slice_ok h s ->
  elems (append growslice h s x).1 (append growslice h s x).2 = elems h s ++ [x] /\
  slice_ok (append growslice h s x).1 (append growslice h s x).2.
Proof.
  intros Hok. pose proof Hok as [Hl Hc]. unfold append.
  destruct (len s <? cap s) eqn:E; simpl.
  - apply Nat.ltb_lt in E. unfold elems, slice_ok. simpl.
    rewrite arrayAt_insert. split.
    + rewrite (take_S_r _ _ x) by (apply list_lookup_insert_eq; lia).
      rewrite take_insert_ge by lia. reflexivity.
    + rewrite length_insert. lia.
  - apply Nat.ltb_ge in E. unfold elems at 1. unfold slice_ok. simpl.
    rewrite arrayAt_app_new. split.
    + rewrite cons_middle, app_assoc.
      apply take_app_length'. rewrite length_app, length_elems by exact Hok.
      simpl. lia.
    + rewrite length_app, length_elems by exact Hok. simpl.
      rewrite length_replicate. lia.
Qed.

(** What another slice shows after the [append]: the cell written, when it
    shows the same array beyond the receiver's length. *)
Lemma append_other h s t x :
  slice_ok h s -> slice_ok h t ->
  elems (append growslice h s x).1 t
  = (if decide (ptr t = ptr s /\ len s < len t /\ len s < cap s)
     then <[len s := x]> (elems h t) else elems h t) /\
  slice_ok (append growslice h s x).1 t.
Proof.
  intros Hs Ht. unfold append.
  destruct (len s <? cap s) eqn:E; simpl.
  - apply Nat.ltb_lt in E. destruct (decide (ptr t = ptr s)) as [Ep|Hne].
    + unfold elems, slice_ok. rewrite Ep, arrayAt_insert, take_insert, length_insert.
      split; [|rewrite <- Ep; exact Ht].
      destruct (decide (len s < len t)), (decide (_ /\ _)); try reflexivity; tauto.
    + unfold elems, slice_ok. rewrite arrayAt_alter_ne by congruence.
      split; [|exact Ht].
      destruct (decide (_ /\ _)); [tauto|reflexivity].
  - apply Nat.ltb_ge in E. split; [|apply slice_ok_app; exact Ht].
    rewrite elems_app by exact Ht.
    destruct (decide (_ /\ _)); [lia|reflexivity].
Qed.

End SliceFacts.

Section MemoryFacts.
Context {M : Libm}.
Variable growslice : nat -> nat -> nat.
Local Open Scope nat_scope.
Implicit Types (m : memory) (c : stmt) (p : list stmt) (v w : string).

Lemma memory_ok_empty : memory_ok emptyMemory.
Proof. intros v s H. simpl in H. rewrite lookup_empty in H. discriminate. Qed.

Lemma separate_empty : separate emptyMemory.
Proof.
  split.
  - intros v s H. simpl in H. rewrite lookup_empty in H. discriminate.
  - intros v w sv sw _ H. simpl in H. rewrite lookup_empty in H. discriminate.
Qed.

Lemma sliceOf_ok m v : memory_ok m -> slice_ok (arrays m) (sliceOf m v).
Proof.
  intros Hok. unfold sliceOf. destruct (vars m !! v) as [s|] eqn:E; simpl.
  - exact (Hok v s E).
  - split; simpl; lia.
Qed.

Lemma sliceOf_insert_eq h (vs : gmap string slice) v s :
  sliceOf (mkMemory h (<[v := s]> vs)) v = s.
Proof. unfold sliceOf. simpl. rewrite lookup_insert_eq. reflexivity. Qed.

Lemma sliceOf_insert_ne h h' (vs : gmap string slice) v w s :
  v <> w -> sliceOf (mkMemory h (<[v := s]> vs)) w = sliceOf (mkMemory h' vs) w.
Proof. intros Hne. unfold sliceOf. simpl. rewrite lookup_insert_ne by exact Hne. reflexivity. Qed.

Lemma exec_GetPosition m v date lat lng :
  (exec growslice m (CallGetPosition v date lat lng)).1 = m.
Proof.
  unfold exec. destruct (GetPosition (calcOf m v) date lat lng). reflexivity.
Qed.

Lemma exec_ok m c : memory_ok m -> memory_ok (exec growslice m c).1.
Proof.
  intros Hok. destruct c as [v|v w|v a r n|v date lat lng|v date lat lng];
    [simpl|simpl|simpl|simpl|rewrite exec_GetPosition].
  - intros u s. simpl. destruct (decide (v = u)) as [->|Hne].
    + rewrite lookup_insert_eq. intros [= <-]. unfold slice_ok. simpl.
      rewrite arrayAt_app_new. simpl. lia.
    + rewrite lookup_insert_ne by exact Hne. intros H.
      apply slice_ok_app. exact (Hok u s H).
  - intros u s. simpl. destruct (decide (v = u)) as [->|Hne].
    + rewrite lookup_insert_eq. intros [= <-]. apply sliceOf_ok. exact Hok.
    + rewrite lookup_insert_ne by exact Hne. apply Hok.
  - pose proof (sliceOf_ok m v Hok) as Hv.
    destruct (append growslice (arrays m) (sliceOf m v) (mkSunTime a r n))
      as [h' s'] eqn:E.
    intros u s. simpl. destruct (decide (v = u)) as [->|Hne].
    + rewrite lookup_insert_eq. intros [= <-].
      pose proof (append_self growslice _ _ (mkSunTime a r n) Hv) as [_ H].
      rewrite E in H. exact H.
    + rewrite lookup_insert_ne by exact Hne. intros H.
      pose proof (append_other growslice _ _ s (mkSunTime a r n) Hv (Hok u s H))
        as [_ H'].
      rewrite E in H'. exact H'.
  - exact Hok.
  - exact Hok.
Qed.

Lemma run_ok m p : memory_ok m -> memory_ok (run growslice m p).
Proof.
  revert m. induction p as [|c p IH]; intros m Hok; [exact Hok|].
  apply (IH (exec growslice m c).1), exec_ok, Hok.
Qed.

Lemma length_append h s x :
  length h <= length (append growslice h s x).1 /\
  ((append growslice h s x).2 = mkSlice (ptr s) (S (len s)) (cap s) /\
   len s < cap s /\ length (append growslice h s x).1 = length h \/
   ptr (append growslice h s x).2 = length h /\
   length (append growslice h s x).1 = S (length h)).
Proof.
  unfold append. destruct (len s <? cap s) eqn:E; simpl.
  - apply Nat.ltb_lt in E. rewrite length_alter. split; [lia|]. left. auto.
  - rewrite length_app. simpl. split; [lia|]. right. split; [reflexivity|lia].
Qed.

Lemma exec_separate m c :
  memory_ok m -> separate m -> copyFree [c] = true ->
  separate (exec growslice m c).1.
Proof.
  intros Hok [Hb Hd] Hc.
  destruct c as [v|v w|v a r n|v date lat lng|v date lat lng];
    [simpl|discriminate|simpl|simpl|rewrite exec_GetPosition].
  - split; simpl.
    + intros u s. rewrite length_app. simpl.
      destruct (decide (v = u)) as [->|Hne].
      * rewrite lookup_insert_eq. intros [= <-]. simpl. lia.
      * rewrite lookup_insert_ne by exact Hne. intros H.
        specialize (Hb u s H). lia.
    + intros u1 u2 s1 s2 Hne.
      destruct (decide (v = u1)) as [<-|H1], (decide (v = u2)) as [<-|H2];
        try congruence;
        rewrite ?lookup_insert_eq, ?lookup_insert_ne by assumption.
      * intros [= <-] H. specialize (Hb _ _ H). simpl. lia.
      * intros H [= <-]. specialize (Hb _ _ H). simpl. lia.
      * apply Hd. exact Hne.
  - pose proof (length_append (arrays m) (sliceOf m v) (mkSunTime a r n))
      as [Hlen Hcases].
    pose proof (sliceOf_ok m v Hok) as Hv.
    destruct (append growslice (arrays m) (sliceOf m v) (mkSunTime a r n))
      as [h' s'] eqn:E. simpl in *.
    assert (Hpres : len (sliceOf m v) < cap (sliceOf m v) ->
                    vars m !! v = Some (sliceOf m v)).
    { unfold sliceOf. destruct (vars m !! v); simpl; [reflexivity|lia]. }
    split; simpl.
    + intros u s. destruct (decide (v = u)) as [->|Hne].
      * rewrite lookup_insert_eq. intros [= <-].
        destruct Hcases as [(-> & Hlt & Hl)|[Hp Hl]]; simpl.
        -- rewrite Hl. exact (Hb _ _ (Hpres Hlt)).
        -- lia.
      * rewrite lookup_insert_ne by exact Hne. intros H.
        specialize (Hb u s H). lia.
    + intros u1 u2 s1 s2 Hne.
      destruct (decide (v = u1)) as [<-|H1], (decide (v = u2)) as [<-|H2];
        try congruence;
        rewrite ?lookup_insert_eq, ?lookup_insert_ne by assumption.
      * intros [= <-] H.
        destruct Hcases as [(-> & Hlt & Hl)|[Hp Hl]]; simpl.
        -- exact (Hd _ _ _ _ Hne (Hpres Hlt) H).
        -- specialize (Hb _ _ H). lia.
      * intros H [= <-].
        destruct Hcases as [(-> & Hlt & Hl)|[Hp Hl]]; simpl.
        -- exact (Hd _ _ _ _ Hne H (Hpres Hlt)).
        -- specialize (Hb _ _ H). lia.
      * apply Hd. exact Hne.
  - split; assumption.
  - split; assumption.
Qed.

(** [AddTime] on [v], seen from [v]. *)
Lemma exec_AddTime_self m v a r n :
  memory_ok m ->
  calcOf (exec growslice m (CallAddTime v a r n)).1 v = AddTime (calcOf m v) a r n.
Proof.
  intros Hok. pose proof (sliceOf_ok m v Hok) as Hv.
  pose proof (append_self growslice _ _ (mkSunTime a r n) Hv) as [H _].
  simpl.
  destruct (append growslice (arrays m) (sliceOf m v) (mkSunTime a r n))
    as [h' s'] eqn:E. simpl in *.
  unfold calcOf, AddTime. simpl. rewrite sliceOf_insert_eq, H. reflexivity.
Qed.

(** [AddTime] on [w], seen from another variable [v]. *)
Lemma exec_AddTime_other m v w a r n :
  memory_ok m -> w <> v ->
  times (calcOf (exec growslice m (CallAddTime w a r n)).1 v)
  = if decide (ptr (sliceOf m v) = ptr (sliceOf m w) /\
               len (sliceOf m w) < len (sliceOf m v) /\
               len (sliceOf m w) < cap (sliceOf m w))
    then <[len (sliceOf m w) := mkSunTime a r n]> (times (calcOf m v))
    else times (calcOf m v).
Proof.
  intros Hok Hne.
  pose proof (append_other growslice _ _ _ (mkSunTime a r n)
                (sliceOf_ok m w Hok) (sliceOf_ok m v Hok)) as [H _].
  simpl.
  destruct (append growslice (arrays m) (sliceOf m w) (mkSunTime a r n))
    as [h' s'] eqn:E. simpl in *.
  unfold calcOf. simpl.
  rewrite (sliceOf_insert_ne _ (arrays m)) by exact Hne.
  destruct m as [h vs]. exact H.
Qed.

Lemma separate_no_overwrite m v w :
  memory_ok m -> separate m -> w <> v ->
  ~ (ptr (sliceOf m v) = ptr (sliceOf m w) /\
     len (sliceOf m w) < len (sliceOf m v) /\
     len (sliceOf m w) < cap (sliceOf m w)).
Proof.
  intros Hok [Hb Hd] Hne (Hp & Hl & Hc). revert Hp Hl Hc. unfold sliceOf.
  destruct (vars m !! v) as [sv|] eqn:Ev, (vars m !! w) as [sw|] eqn:Ew;
    simpl; try lia.
  intros Hp _ _. exact (Hd w v sw sv Hne Ew Ev (eq_sym Hp)).
Qed.

(** One statement of a program without struct copies, seen from a variable
    it does not assign. *)
Lemma exec_times m c v :
  memory_ok m -> separate m -> copyFree [c] = true -> keeps v [c] = true ->
  times (calcOf (exec growslice m c).1 v) = times (calcOf m v) ++ addedTo v [c].
Proof.
  intros Hok Hsep Hc Hk.
  destruct c as [u|u w|u a r n|u date lat lng|u date lat lng];
    try discriminate.
  - simpl in Hk. rewrite andb_true_r in Hk. apply negb_true_iff in Hk.
    apply String.eqb_neq in Hk. simpl. rewrite app_nil_r.
    rewrite (sliceOf_insert_ne _ (arrays m)) by exact Hk.
    destruct m as [h vs]. simpl.
    apply elems_app. apply (sliceOf_ok (mkMemory h vs)). exact Hok.
  - unfold addedTo. simpl flat_map. rewrite app_nil_r.
    destruct (String.eqb_spec u v) as [->|Hne].
    + rewrite exec_AddTime_self by exact Hok. reflexivity.
    + rewrite exec_AddTime_other by assumption.
      destruct (decide (_ /\ _)) as [Hover|_]; [|symmetry; apply app_nil_r].
      destruct (separate_no_overwrite m v u Hok Hsep Hne Hover).
  - simpl. symmetry. apply app_nil_r.
  - rewrite exec_GetPosition. symmetry. apply app_nil_r.
Qed.

Lemma copyFree_cons c p : copyFree (c :: p) = copyFree [c] && copyFree p.
Proof. unfold copyFree. simpl. rewrite andb_true_r. reflexivity. Qed.

Lemma keeps_cons v c p : keeps v (c :: p) = keeps v [c] && keeps v p.
Proof. unfold keeps. simpl. rewrite andb_true_r. reflexivity. Qed.

Lemma addedTo_cons v c p : addedTo v (c :: p) = addedTo v [c] ++ addedTo v p.
Proof. unfold addedTo. simpl. rewrite app_nil_r. reflexivity. Qed.

Lemma times_run m p v :
  memory_ok m -> separate m -> copyFree p = true -> keeps v p = true ->
  times (calcOf (run growslice m p) v) = times (calcOf m v) ++ addedTo v p.
Proof.
  revert m. induction p as [|c p IH]; intros m Hok Hsep Hc Hk.
  - simpl. symmetry. apply app_nil_r.
  - rewrite copyFree_cons in Hc. rewrite keeps_cons in Hk.
    apply andb_true_iff in Hc as [Hc1 Hc2]. apply andb_true_iff in Hk as [Hk1 Hk2].
    change (run growslice m (c :: p)) with (run growslice (exec growslice m c).1 p).
    rewrite IH; [|apply exec_ok; exact Hok|apply exec_separate; assumption
                 |exact Hc2|exact Hk2].
    rewrite exec_times by assumption.
    rewrite (addedTo_cons v c p), app_assoc. reflexivity.
Qed.

(** C10, amended.  [GetTimes] and [GetPosition] write nothing.  [AddTime]
    on [v] appends exactly one definition to what [v] shows, keeping the
    earlier ones in order, so [GetTimes] on [v] still has an entry under
    each of their names.  [AddTime] on another variable [w] leaves what [v]
    shows as it was, except when [v] shows the same array beyond the length
    of [w] and [w] has a spare cell -- which takes a struct copy -- and then
    it replaces the definition of [v] at that position.  In a program without
    struct copies, what [v] shows only grows, by the definitions added to
    [v], whatever is done to other calculators. *)
Theorem AddTime_only_appends m v :
  memory_ok m ->
  (forall w date lat lng,
     (exec growslice m (CallGetTimes w date lat lng)).1 = m /\
     (exec growslice m (CallGetPosition w date lat lng)).1 = m) /\
  (forall a r n,
     let m' := (exec growslice m (CallAddTime v a r n)).1 in
     calcOf m' v = AddTime (calcOf m v) a r n /\
     forall date lat lng t k,
       t ∈ times (calcOf m v) -> k ∈ namesOf t ->
       is_Some (GetTimes (calcOf m' v) date lat lng !! k)) /\
  (forall w a r n,
     w <> v ->
     let m' := (exec growslice m (CallAddTime w a r n)).1 in
     times (calcOf m' v)
     = if decide (ptr (sliceOf m v) = ptr (sliceOf m w) /\
                  len (sliceOf m w) < len (sliceOf m v) /\
                  len (sliceOf m w) < cap (sliceOf m w))
       then <[len (sliceOf m w) := mkSunTime a r n]> (times (calcOf m v))
       else times (calcOf m v)) /\
  (separate m ->
   forall p, copyFree p = true -> keeps v p = true ->
     times (calcOf (run growslice m p) v) = times (calcOf m v) ++ addedTo v p /\
     forall date lat lng t k,
       t ∈ times (calcOf m v) -> k ∈ namesOf t ->
       is_Some (GetTimes (calcOf (run growslice m p) v) date lat lng !! k)).
Proof.
  intros Hok. split; [|split; [|split]].
  - intros w date lat lng. split; [reflexivity|apply exec_GetPosition].
  - intros a r n m'. subst m'. split; [apply exec_AddTime_self; exact Hok|].
    intros date lat lng t k Ht Hk.
    apply (GetTimes_emits _ date lat lng t k); [|exact Hk].
    rewrite exec_AddTime_self by exact Hok. simpl.
    apply elem_of_app. left. exact Ht.
  - intros w a r n Hne m'. subst m'. apply exec_AddTime_other; assumption.
  - intros Hsep p Hc Hk.
    pose proof (times_run m p v Hok Hsep Hc Hk) as Hrun.
    split; [exact Hrun|].
    intros date lat lng t k Ht Hn.
    apply (GetTimes_emits _ date lat lng t k); [|exact Hn].
    rewrite Hrun. apply elem_of_app. left. exact Ht.
Qed.

(** X11.  In a program without struct copies, a calculator made by
    [NewSunCalc] and not assigned again shows the six default definitions
    followed by the definitions of its own [AddTime] calls, in call order,
    whatever calls are made on other calculators in between. *)
Theorem run_times m v p :
  memory_ok m -> separate m -> copyFree p = true -> keeps v p = true ->
  times (calcOf (run growslice m (New v :: p)) v)
  = times NewSunCalc ++ addedTo v p.
Proof.
  intros Hok Hsep Hc Hk.
  change (run growslice m (New v :: p))
    with (run growslice (exec growslice m (New v)).1 p).
  rewrite times_run;
    [|apply exec_ok; exact Hok|apply exec_separate; [exact Hok|exact Hsep|reflexivity]
     |exact Hc|exact Hk].
  f_equal. simpl. rewrite sliceOf_insert_eq. unfold elems. simpl.
  rewrite arrayAt_app_new. reflexivity.
Qed.

End MemoryFacts.

Section MemoryExamples.

Lemma AddTime_only_appends_witness :
  calcOf (exec doubling (run doubling emptyMemory [New "s1"])
            (CallAddTime "s1" 1%float "a" "b")).1 "s1"
  = AddTime (calcOf (run doubling emptyMemory [New "s1"]) "s1") 1%float "a" "b".
Proof.
  refine (proj1 (proj1 (proj2 (AddTime_only_appends (M := GoLibm) doubling
                                 (run doubling emptyMemory [New "s1"]) "s1" _))
                   1%float "a" "b")).
  apply run_ok, memory_ok_empty.
Defined.

Lemma run_times_witness :
  times (calcOf (run doubling emptyMemory
                   [New "s1"; New "s2"; CallAddTime "s1" 1%float "a" "b";
                    CallAddTime "s2" 3%float "e" "f";
                    CallAddTime "s1" 2%float "c" "d"]) "s1")
  = times NewSunCalc ++ [mkSunTime 1 "a" "b"; mkSunTime 2 "c" "d"].
Proof.
  refine (run_times (M := GoLibm) doubling emptyMemory "s1"
            [New "s2"; CallAddTime "s1" 1%float "a" "b";
             CallAddTime "s2" 3%float "e" "f"; CallAddTime "s1" 2%float "c" "d"]
            memory_ok_empty separate_empty _ _); reflexivity.
Defined.

(** C10, as stated, fails for a calculator that has been copied.  After
    [s1 := NewSunCalc(); s1.AddTime(1, "a", "b")] the array of [s1] has room
    to spare; [s2 := s1] shows the same array; [s1.AddTime(2, "c", "d")]
    writes cell 7 and so does [s2.AddTime(3, "e", "f")]: the definition
    [s1] had added is replaced, and [GetTimes] on [s1] has no entry under
    [c] any more. *)
Lemma AddTime_overwrites_copy :
  times (calcOf (run doubling emptyMemory (take 4 aliasing)) "s1")
  = times NewSunCalc ++ [mkSunTime 1 "a" "b"; mkSunTime 2 "c" "d"] /\
  GetTimes (calcOf (run doubling emptyMemory (take 4 aliasing)) "s1")
    testDate testLat testLng !! "c"
  = Some (mkInstant 1406603291 823001205) /\
  times (calcOf (run doubling emptyMemory aliasing) "s1")
  = times NewSunCalc ++ [mkSunTime 1 "a" "b"; mkSunTime 3 "e" "f"] /\
  GetTimes (calcOf (run doubling emptyMemory aliasing) "s1")
    testDate testLat testLng !! "c"
  = None.
Proof. repeat split; vm_compute; reflexivity. Qed.

End MemoryExamples.
